(** * Fleet tasks: host selection, deploy dispatch and reboot polling

    A shallow embedding of [tasks.py]: the host selector [get_hosts], the
    per-host deploy unit of [deploy_nixos], the TCP readiness loop
    [wait_for_port] and the [reboot] task, together with the properties the
    specification states about them.

    Python strings are lists of characters; the external collaborators
    (deploykit, the flake query, the archive command, the network) are fields
    of an environment record, so that every definition stays executable. *)

From Stdlib Require Import List Ascii String ZArith Bool Arith Lia Permutation.
Import ListNotations.

Local Open Scope list_scope.

(** ** Python strings *)

Module PyStr.

Abbreviation str := (list ascii).

(** A string literal of the source. *)
Definition lit (s : string) : str := list_ascii_of_string s.

(** [a == b] on strings. *)
Fixpoint eqb (a b : str) : bool :=
  match a, b with
  | [], [] => true
  | x :: a', y :: b' => Ascii.eqb x y && eqb a' b'
  | _, _ => false
  end.

(** [s.startswith(pre)]. *)
Fixpoint startswith (pre s : str) : bool :=
  match pre, s with
  | [], _ => true
  | _ :: _, [] => false
  | x :: pre', y :: s' => Ascii.eqb x y && startswith pre' s'
  end.

(** [sub in s]: [sub] occurs at some position of [s]. *)
Fixpoint contains (sub s : str) : bool :=
  startswith sub s
  || match s with
     | [] => false
     | _ :: s' => contains sub s'
     end.

(** [s.split(sep)] for a one-character separator: the tokens between the
    separators, empty tokens included; the empty string gives one empty
    token. *)
Fixpoint split (sep : ascii) (s : str) : list str :=
  match s with
  | [] => [[]]
  | c :: s' =>
      if Ascii.eqb c sep then [] :: split sep s'
      else match split sep s' with
           | t :: ts => (c :: t) :: ts
           | [] => [[c]]
           end
  end.

(** [sep.join(tokens)] for a one-character separator. *)
Fixpoint join (sep : ascii) (tokens : list str) : str :=
  match tokens with
  | [] => []
  | [t] => t
  | t :: ts => t ++ sep :: join sep ts
  end.

(** The scan of [s.replace(old, new)] for a non-empty [old]: left to right,
    every occurrence found is replaced and the scan resumes after it;
    [skip] counts the characters of the current occurrence still to pass. *)
Fixpoint replace_from (old new : str) (skip : nat) (s : str) : str :=
  match s with
  | [] => []
  | c :: s' =>
      match skip with
      | S k => replace_from old new k s'
      | O =>
          if startswith old s
          then new ++ replace_from old new (List.length old - 1) s'
          else c :: replace_from old new 0 s'
      end
  end.

(** [s.replace(old, new)]; an empty [old] matches before every character
    and at the end. *)
Definition replace (old new s : str) : str :=
  match old with
  | [] => new ++ flat_map (fun c => c :: new) s
  | _ :: _ => replace_from old new 0 s
  end.

(** [s.endswith(suf)]. *)
Definition endswith (suf s : str) : bool :=
  startswith (rev suf) (rev s).

(** [str(x)] of an optional string inside an f-string: [None] prints as
    the word None. *)
Definition fmt_opt (x : option str) : str :=
  match x with
  | Some s => s
  | None => lit "None"
  end.

End PyStr.
Import PyStr.

(** The specification's wording of the attribute-name rule: strip the domain
    SUFFIX, once, at the end ([s.removesuffix(suf)]).  Kept apart from
    [replace], which is what the code calls. *)
Definition spec_strip_suffix (suf s : str) : str :=
  if endswith suf s then firstn (List.length s - List.length suf) s else s.

(** ** deploykit's host value *)

(** The attributes of a [DeployHost] the tasks read. *)
Record DeployHost := mkDeployHost {
  host : str;
  user : option str;
  port : option Z
}.

(** ** Results, exceptions and the environment *)

Inductive exn :=
| CalledProcessError   (* a subprocess or remote command failed *)
| JSONDecodeError      (* json.loads on malformed text *)
| KeyError             (* a missing key of the parsed document *)
| UnicodeError         (* a host name that cannot be encoded, not an OSError *)
| OtherError.          (* any other exception that is not an OSError *)

Inductive result (A : Type) :=
| Ok (a : A)
| Raise (e : exn).
Arguments Ok {A} a.
Arguments Raise {A} e.

(** What [except OSError] can catch around [socket.create_connection]. *)
Inductive oserror :=
| ConnectionRefused
| TimedOut
| NameResolution       (* socket.gaierror *)
| OtherOSError (errno : Z).

(** What [socket.create_connection] can do: connect, raise an [OSError], or
    raise an exception that is not an [OSError] and so passes through
    [except OSError] (the [UnicodeError] for a host name with an empty
    label, such as ".nix-community.org"). *)
Inductive probe_result :=
| Connected
| OSError (cause : oserror)
| Uncaught (e : exn).

(** Everything the tasks obtain from outside the file. *)
Record Env := mkEnv {
  (** the value deploykit stores for [user] and [port] when the constructor
      is called without them *)
  default_user : option str;
  default_port : option Z;
  (** the keys of [data["nixosConfigurations"]] of [nix flake show --json],
      in iteration order, or the exception of the query *)
  flake_show : result (list str);
  (** [h.run_local(argv, stdout=PIPE)]: the captured stdout *)
  run_local : DeployHost -> list str -> result str;
  (** [json.loads(text)["path"]] *)
  json_path : str -> result str;
  (** [h.run(cmd)] *)
  run : DeployHost -> str -> result unit;
  (** [socket.create_connection((host, port), timeout=1)]: the outcome of
      the n-th connection attempt of the process *)
  create_connection : nat -> str -> Z -> probe_result
}.

(** Observable actions, in program order. *)
Inductive event :=
| RunLocal (h : DeployHost) (argv : list str)
| Run (h : DeployHost) (cmd : str)
| Connect (address : str) (port : Z) (timeout_s : Z) (r : probe_result)
| Sleep (milliseconds : Z)
| Write (text : str)
| Flush.

Record state := mkState {
  attempts : nat;          (* connection attempts made so far *)
  trace : list event
}.

(** How a computation stands when observed: it returned, it raised, or it is
    still inside a loop after the iterations granted to it. *)
Inductive outcome (A : Type) :=
| Returned (a : A)
| Raised (e : exn)
| Running.
Arguments Returned {A} a.
Arguments Raised {A} e.
Arguments Running {A}.

Definition M (A : Type) : Type := state -> outcome A * state.

Definition ret {A} (a : A) : M A := fun st => (Returned a, st).

Definition bind {A B} (m : M A) (k : A -> M B) : M B :=
  fun st =>
    match m st with
    | (Returned a, st') => k a st'
    | (Raised e, st') => (Raised e, st')
    | (Running, st') => (Running, st')
    end.

Declare Scope task_scope.
Delimit Scope task_scope with task.
Notation "x <- m ;; k" := (bind m (fun x => k))
  (at level 61, m at next level, right associativity) : task_scope.
Notation "m ;; k" := (bind m (fun _ => k))
  (at level 61, right associativity) : task_scope.
Local Open Scope task_scope.

Definition emit (e : event) : M unit :=
  fun st => (Returned tt, mkState (attempts st) (trace st ++ [e])).

Definition lift {A} (r : result A) : M A :=
  fun st =>
    match r with
    | Ok a => (Returned a, st)
    | Raise e => (Raised e, st)
    end.

Definition out_of_iterations {A} : M A := fun st => (Running, st).

(** [for x in xs: body(x)]. *)
Fixpoint for_each {A} (body : A -> M unit) (xs : list A) : M unit :=
  match xs with
  | [] => ret tt
  | x :: xs' => body x ;; for_each body xs'
  end.

(** ** The tasks *)

Definition domain : str := lit ".nix-community.org".

Definition newline : str := ["010"%char].

Section Tasks.

Variable E : Env.

(** [DeployHost(address)] and [DeployHost(address, user=u)]. *)
Definition DeployHost_ (address : str) : DeployHost :=
  mkDeployHost address (default_user E) (default_port E).

Definition DeployHost_as (address u : str) : DeployHost :=
  mkDeployHost address (Some u) (default_port E).

(** [get_hosts(hosts)]. *)
Definition get_hosts (hosts : str) : result (list DeployHost) :=
  if eqb hosts [] then
    match flake_show E with
    | Ok systems => Ok (map (fun n => DeployHost_ (n ++ domain)) systems)
    | Raise e => Raise e
    end
  else if contains (lit "darwin") hosts then
    if eqb hosts (lit "darwin01") then
      Ok [DeployHost_as (lit "darwin01.nix-community.org") (lit "customer")]
    else
      Ok (map (fun h => DeployHost_as (h ++ domain) (lit "hetzner"))
              (split ","%char hosts))
  else
    Ok (map (fun h => DeployHost_ (h ++ domain)) (split ","%char hosts)).

Definition h_run_local (h : DeployHost) (argv : list str) : M str :=
  emit (RunLocal h argv) ;; lift (run_local E h argv).

Definition h_run (h : DeployHost) (cmd : str) : M unit :=
  emit (Run h cmd) ;; lift (run E h cmd).

(** The command word and the transfer target chosen for a host. *)
Definition deploy_command (h : DeployHost) : str :=
  if contains (lit "darwin") (host h)
  then lit "darwin-rebuild"
  else lit "sudo nixos-rebuild".

Definition deploy_target (h : DeployHost) : str :=
  if contains (lit "darwin") (host h)
  then fmt_opt (user h) ++ lit "@" ++ host h
  else host h.

(** The inner function [deploy] of [deploy_nixos]. *)
Definition deploy (h : DeployHost) : M unit :=
  let command := deploy_command h in
  let target := deploy_target h in
  stdout <- h_run_local h
    [lit "nix"; lit "flake"; lit "archive"; lit "--to";
     lit "ssh://" ++ target; lit "--json"] ;;
  path <- lift (json_path E stdout) ;;
  let hostname := replace domain [] (host h) in
  h_run h (command
           ++ lit " switch --option accept-flake-config true --flake "
           ++ path ++ lit "#" ++ hostname).

Definition connect (address : str) (p : Z) (timeout_s : Z) : M probe_result :=
  fun st =>
    let r := create_connection E (attempts st) address p in
    (Returned r,
     mkState (S (attempts st)) (trace st ++ [Connect address p timeout_s r])).

(** [wait_for_port(host, port, shutdown)]; [fuel] bounds the iterations of
    [while True] that are observed.  The socket of a successful attempt is
    closed when its [with] block is left, which nothing here observes. *)
Fixpoint wait_for_port (fuel : nat) (address : str) (p : Z)
         (shutdown : bool) : M unit :=
  match fuel with
  | O => out_of_iterations
  | S fuel' =>
      r <- connect address p 1 ;;
      match r with
      | Connected =>
          if shutdown then
            emit (Sleep 1000) ;;
            emit (Write (lit ".")) ;;
            emit Flush ;;
            wait_for_port fuel' address p shutdown
          else ret tt
      | OSError _ =>
          if shutdown then ret tt
          else
            emit (Sleep 10) ;;
            emit (Write (lit ".")) ;;
            emit Flush ;;
            wait_for_port fuel' address p shutdown
      | Uncaught e => lift (Raise e)
      end
  end.

(** [print(text, end=e)]. *)
Definition print (text e : str) : M unit := emit (Write (text ++ e)).

(** [h.port or 22]. *)
Definition port_or (h : DeployHost) (d : Z) : Z :=
  match port h with
  | Some p => if Z.eqb p 0 then d else p
  | None => d
  end.

(** The body of the loop of [reboot]; [fuel] bounds the observed iterations
    of each of its two waits. *)
Definition reboot_host (fuel : nat) (h : DeployHost) : M unit :=
  h_run h (lit "sudo reboot &") ;;
  print (lit "Wait for " ++ host h ++ lit " to shutdown") [] ;;
  emit Flush ;;
  let p := port_or h 22 in
  wait_for_port fuel (host h) p true ;;
  print [] newline ;;
  print (lit "Wait for " ++ host h ++ lit " to start") [] ;;
  emit Flush ;;
  wait_for_port fuel (host h) p false ;;
  print [] newline.

(** [reboot(c, hosts)]. *)
Definition reboot (fuel : nat) (hosts : str) : M unit :=
  hs <- lift (get_hosts hosts) ;;
  for_each (reboot_host fuel) hs.

End Tasks.

(** The document the archive command of the examples prints, an object with
    the one key "path", and [json.loads(text)["path"]] on the texts of the
    examples: that document, the empty object, and anything else taken as
    malformed. *)
Definition quote : str := ["034"%char].

Definition archive_stdout : str :=
  lit "{" ++ quote ++ lit "path" ++ quote ++ lit ": "
  ++ quote ++ lit "/nix/store/src" ++ quote ++ lit "}".

Definition parse_path (text : str) : result str :=
  if eqb text archive_stdout then Ok (lit "/nix/store/src")
  else if eqb text (lit "{}") then Raise KeyError
  else Raise JSONDecodeError.

(** A concrete environment for examples: deploykit's defaults are [None],
    the flake declares two configurations, every command succeeds and the
    archive answers with one store path; the network, over and over, accepts
    two connection attempts and refuses the next three. *)
Definition example_env : Env :=
  mkEnv None None
        (Ok [lit "build01"; lit "darwin02"])
        (fun _ _ => Ok archive_stdout)
        parse_path
        (fun _ _ => Ok tt)
        (fun n _ _ =>
           if (n mod 5 <? 2)%nat then Connected
           else OSError ConnectionRefused).

Definition st0 : state := mkState 0 [].


(** The same environment with a host that never answers. *)
Definition unreachable_env : Env :=
  mkEnv None None
        (Ok [lit "build01"; lit "darwin02"])
        (fun _ _ => Ok archive_stdout)
        parse_path
        (fun _ _ => Ok tt)
        (fun _ _ _ => OSError TimedOut).

(** ** Shapes of traces

    The events of one iteration of [wait_for_port] that goes round again:
    the attempt with its result, the sleep, the dot and the flush. *)
Definition round (address : str) (p : Z) (r : probe_result) (delay_ms : Z)
  : list event :=
  [Connect address p 1 r; Sleep delay_ms; Write (lit "."); Flush].

(** [k] such iterations in a row, starting at attempt number [n]. *)
Definition rounds (E : Env) (address : str) (p : Z) (delay_ms : Z)
           (n k : nat) : list event :=
  List.concat (map (fun j => round address p (create_connection E (n + j) address p)
                              delay_ms)
              (seq 0 k)).

(** Whether an attempt with result [r] sends the loop round again. *)
Definition goes_round (shutdown : bool) (r : probe_result) : bool :=
  match r with
  | Connected => shutdown
  | OSError _ => negb shutdown
  | Uncaught _ => false
  end.

(** Whether an attempt with result [r] ends the loop by [break]. *)
Definition stops (shutdown : bool) (r : probe_result) : bool :=
  match r with
  | Connected => negb shutdown
  | OSError _ => shutdown
  | Uncaught _ => false
  end.

Definition delay_of (shutdown : bool) : Z := if shutdown then 1000 else 10.


(** The events of one complete cycle of the loop of [reboot] for host [h]:
    the reboot command and the first message, [kd] rounds of waiting for
    shutdown and the attempt that ends them, the second message, [ku] rounds
    of waiting for start-up and the attempt that ends them.  [n] is the
    number of the cycle's first connection attempt. *)
Definition cycle_head (h : DeployHost) : list event :=
  [Run h (lit "sudo reboot &");
   Write (lit "Wait for " ++ host h ++ lit " to shutdown");
   Flush].

Definition cycle_mid (h : DeployHost) (r : probe_result) : list event :=
  [Connect (host h) (port_or h 22) 1 r;
   Write newline;
   Write (lit "Wait for " ++ host h ++ lit " to start");
   Flush].

Definition cycle_tail (h : DeployHost) (r : probe_result) : list event :=
  [Connect (host h) (port_or h 22) 1 r; Write newline].

Definition reboot_cycle (E : Env) (h : DeployHost) (n kd ku : nat)
  : list event :=
  cycle_head h
  ++ rounds E (host h) (port_or h 22) 1000 n kd
  ++ cycle_mid h (create_connection E (n + kd) (host h) (port_or h 22))
  ++ rounds E (host h) (port_or h 22) 10 (n + kd + 1) ku
  ++ cycle_tail h (create_connection E (n + kd + 1 + ku) (host h) (port_or h 22)).

(** What the network and the host did in a complete cycle: the command
    succeeded, the host answered [kd] times and then failed to, failed [ku]
    more times and then answered. *)
Definition cycle_complete (E : Env) (h : DeployHost) (n kd ku : nat) : Prop :=
  run E h (lit "sudo reboot &") = Ok tt
  /\ (forall j, j < kd ->
        create_connection E (n + j) (host h) (port_or h 22) = Connected)
  /\ (exists c, create_connection E (n + kd) (host h) (port_or h 22) = OSError c)
  /\ (forall j, j < ku ->
        exists c, create_connection E (n + kd + 1 + j) (host h) (port_or h 22)
                  = OSError c)
  /\ create_connection E (n + kd + 1 + ku) (host h) (port_or h 22) = Connected.

(** The complete cycles of several hosts one after the other, each paired
    with its numbers of rounds. *)
Fixpoint cycles (E : Env) (n : nat) (cs : list (DeployHost * (nat * nat)))
  : list event :=
  match cs with
  | [] => []
  | (h, (kd, ku)) :: cs' =>
      reboot_cycle E h n kd ku ++ cycles E (n + kd + ku + 2) cs'
  end.

Fixpoint cycles_complete (E : Env) (n : nat)
         (cs : list (DeployHost * (nat * nat))) : Prop :=
  match cs with
  | [] => True
  | (h, (kd, ku)) :: cs' =>
      cycle_complete E h n kd ku /\ cycles_complete E (n + kd + ku + 2) cs'
  end.


(** The connection attempts made by such a sequence of cycles. *)
Fixpoint probes (cs : list (DeployHost * (nat * nat))) : nat :=
  match cs with
  | [] => 0
  | (_, (kd, ku)) :: cs' => kd + ku + 2 + probes cs'
  end.


(** A network on which every host sooner or later stops answering and
    sooner or later answers again, and on which a connection attempt raises
    nothing but an [OSError]. *)
Definition network_recovers (E : Env) : Prop :=
  forall n address p,
    (forall e, create_connection E n address p <> Uncaught e)
    /\ (exists k c, create_connection E (n + k) address p = OSError c)
    /\ (exists k, create_connection E (n + k) address p = Connected).


(** No proper, non-empty beginning of [old] is also an end of it: then two
    occurrences of [old] cannot overlap. *)
Definition border_free (old : str) : bool :=
  negb (existsb (fun k => eqb (firstn k old) (skipn (List.length old - k) old))
                (seq 1 (List.length old - 1))).


(** ** The parallel executor *)

Inductive Outcome :=
| Success
| Failure (reason : exn).


Definition is_failure (o : Outcome) : bool :=
  match o with
  | Success => false
  | Failure _ => true
  end.



(** An environment in which the remote command fails on build01 only. *)
Definition flaky_env : Env :=
  mkEnv None None
        (Ok [lit "build01"; lit "build02"])
        (fun _ _ => Ok archive_stdout)
        parse_path
        (fun h _ => if eqb (host h) (lit "build01.nix-community.org")
                    then Raise CalledProcessError else Ok tt)
        (fun _ _ _ => Connected).


(** ** The build-only unit *)

(** The inner function [build_local] of the task [build_local]; the value
    [h.run_local] returns is dropped. *)
Definition build_local (E : Env) (h : DeployHost) : M unit :=
  let hostname := replace domain [] (host h) in
  _ <- h_run_local E h
    [lit "nixos-rebuild"; lit "build"; lit "--option";
     lit "accept-flake-config"; lit "true"; lit "--flake";
     lit ".#" ++ hostname] ;;
  ret tt.

(** ** Reading traces *)

Definition is_run (e : event) : bool :=
  match e with
  | Run _ _ => true
  | _ => false
  end.



(** What an event of [reboot] over the hosts [hs] may be: the reboot command
    on one of the hosts, a connection attempt to the address of one of them
    on port [p] with a timeout of one second, or console output. *)
Definition reboot_event (hs : list DeployHost) (p : Z) (e : event) : Prop :=
  match e with
  | Run h cmd => In h hs /\ cmd = lit "sudo reboot &"
  | Connect address q timeout_s _ =>
      In address (map host hs) /\ q = p /\ timeout_s = 1%Z
  | RunLocal _ _ => False
  | Sleep _ | Write _ | Flush => True
  end.

(** The port [reboot] probes on hosts built by [get_hosts], which never
    passes a port: deploykit's default, or 22. *)
Definition probe_port (E : Env) : Z :=
  match default_port E with
  | Some q => if Z.eqb q 0 then 22%Z else q
  | None => 22%Z
  end.

(** The example environment, with a reboot command that fails on build01. *)
Definition failing_reboot_env : Env :=
  mkEnv None None
        (Ok [lit "build01"; lit "darwin02"])
        (fun _ _ => Ok archive_stdout)
        parse_path
        (fun h _ => if eqb (host h) (lit "build01.nix-community.org")
                    then Raise CalledProcessError else Ok tt)
        (fun n _ _ =>
           if (n mod 5 <? 2)%nat then Connected
           else OSError ConnectionRefused).

(** The example environment, with a host that goes down at the third
    attempt and stays down. *)
Definition stays_down_env : Env :=
  mkEnv None None
        (Ok [lit "build01"; lit "darwin02"])
        (fun _ _ => Ok archive_stdout)
        parse_path
        (fun _ _ => Ok tt)
        (fun n _ _ =>
           if (n <? 2)%nat then Connected else OSError TimedOut).


(** The example environment, with a resolver that cannot encode the host
    name with an empty label that an empty token of the host list gives. *)
Definition empty_label_env : Env :=
  mkEnv None None
        (Ok [lit "build01"; lit "darwin02"])
        (fun _ _ => Ok archive_stdout)
        parse_path
        (fun _ _ => Ok tt)
        (fun n address _ =>
           if eqb address (lit ".nix-community.org") then Uncaught UnicodeError
           else if (n mod 5 <? 2)%nat then Connected
           else OSError ConnectionRefused).


(** The example environment, with an archive command that prints an object
    without a path. *)
Definition no_path_env : Env :=
  mkEnv None None
        (Ok [lit "build01"; lit "darwin02"])
        (fun _ _ => Ok (lit "{}"))
        parse_path
        (fun _ _ => Ok tt)
        (fun n _ _ =>
           if (n mod 5 <? 2)%nat then Connected
           else OSError ConnectionRefused).


(** * Properties *)

(** ** Strings *)

Lemma eqb_eq (a b : str) : eqb a b = true <-> a = b.
Proof.
  revert b; induction a as [|x a IH]; intros [|y b]; simpl;
    try (split; [discriminate | congruence]); try tauto.
  rewrite andb_true_iff, Ascii.eqb_eq, IH.
  split; [intros [-> ->]; reflexivity | intros H; inversion H; auto].
Qed.

Lemma eqb_neq (a b : str) : eqb a b = false <-> a <> b.
Proof.
  rewrite <- eqb_eq. destruct (eqb a b); split; congruence.
Qed.

Lemma startswith_iff (p s : str) :
  startswith p s = true <-> exists r, s = p ++ r.
Proof.
  revert s; induction p as [|x p IH]; intros s; simpl.
  - split; [intros _; exists s; reflexivity | reflexivity].
  - destruct s as [|y s].
    + split; [discriminate | intros [r H]; discriminate].
    + rewrite andb_true_iff, Ascii.eqb_eq, IH. split.
      * intros [-> [r ->]]. exists r; reflexivity.
      * intros [r H]. inversion H; subst. split; [reflexivity | exists r; reflexivity].
Qed.

Lemma contains_iff (sub s : str) :
  contains sub s = true <-> exists a b, s = a ++ sub ++ b.
Proof.
  induction s as [|c s IH]; simpl.
  - rewrite orb_false_r, startswith_iff. split.
    + intros [r H]. exists [], r. exact H.
    + intros [a [b H]]. destruct a; [exists b; exact H | discriminate].
  - rewrite orb_true_iff, startswith_iff, IH. split.
    + intros [[r H] | [a [b H]]].
      * exists [], r. exact H.
      * exists (c :: a), b. simpl. congruence.
    + intros [[|x a] [b H]].
      * left. exists b. exact H.
      * right. inversion H; subst. exists a, b. reflexivity.
Qed.

Lemma split_not_nil (sep : ascii) (s : str) : split sep s <> [].
Proof.
  destruct s as [|c s]; simpl; [discriminate|].
  destruct (Ascii.eqb c sep); [discriminate|].
  destruct (split sep s); discriminate.
Qed.

Lemma split_length (sep : ascii) (s : str) :
  List.length (split sep s) = S (count_occ ascii_dec s sep).
Proof.
  induction s as [|c s IH]; simpl; [reflexivity|].
  destruct (Ascii.eqb_spec c sep) as [->|Hne].
  - destruct (ascii_dec sep sep); [|congruence]. simpl. now rewrite IH.
  - destruct (ascii_dec c sep); [congruence|].
    destruct (split sep s) eqn:Hs; [now apply split_not_nil in Hs|].
    exact IH.
Qed.

(** The tokens of [split], joined again, are the string that was split, and
    no token holds the separator. *)
Lemma join_split (sep : ascii) (s : str) : join sep (split sep s) = s.
Proof.
  induction s as [|c s IH]; simpl; [reflexivity|].
  destruct (Ascii.eqb_spec c sep) as [->|Hne].
  - destruct (split sep s) eqn:Hs; [now apply split_not_nil in Hs|].
    simpl in *. now rewrite IH.
  - destruct (split sep s) as [|t [|t' ts]] eqn:Hs;
      [now apply split_not_nil in Hs | |]; simpl in *; now rewrite IH.
Qed.

Lemma split_tokens_no_sep (sep : ascii) (s : str) :
  Forall (fun t => ~ In sep t) (split sep s).
Proof.
  induction s as [|c s IH]; simpl.
  - constructor; [intros [] | constructor].
  - destruct (Ascii.eqb_spec c sep) as [->|Hne].
    + constructor; [intros [] | exact IH].
    + destruct (split sep s) as [|t ts]; [repeat constructor; intros [H|[]]; congruence|].
      inversion IH; subst. constructor; [|assumption].
      intros [H|H]; [congruence | contradiction].
Qed.

Lemma split_head_prefix (sep : ascii) (s t : str) (ts : list str) :
  split sep s = t :: ts -> exists b, s = t ++ b.
Proof.
  revert t ts; induction s as [|c s IH]; simpl; intros t ts H.
  - inversion H; subst. exists []; reflexivity.
  - destruct (Ascii.eqb c sep).
    + inversion H; subst. exists (c :: s); reflexivity.
    + destruct (split sep s) as [|t0 ts0] eqn:Hs; [now apply split_not_nil in Hs|].
      inversion H; subst. destruct (IH _ _ eq_refl) as [b ->].
      exists b; reflexivity.
Qed.

Lemma split_token_infix (sep : ascii) (s t : str) :
  In t (split sep s) -> exists a b, s = a ++ t ++ b.
Proof.
  revert t; induction s as [|c s IH]; simpl; intros t H.
  - destruct H as [<-|[]]. exists [], []; reflexivity.
  - destruct (Ascii.eqb c sep).
    + destruct H as [<-|H].
      * exists [], (c :: s); reflexivity.
      * destruct (IH _ H) as [a [b ->]]. exists (c :: a), b; reflexivity.
    + destruct (split sep s) as [|t0 ts0] eqn:Hs; [now apply split_not_nil in Hs|].
      destruct H as [<-|H].
      * destruct (split_head_prefix _ _ _ _ Hs) as [b ->].
        exists [], b; reflexivity.
      * destruct (IH t (or_intror H)) as [a [b ->]].
        exists (c :: a), b; reflexivity.
Qed.

(** A token that contains a pattern makes the whole list contain it. *)
Lemma contains_token (sub : str) (sep : ascii) (s t : str) :
  In t (split sep s) -> contains sub t = true -> contains sub s = true.
Proof.
  intros Hin Hc. apply contains_iff in Hc. destruct Hc as [a [b ->]].
  apply split_token_infix in Hin. destruct Hin as [a' [b' ->]].
  apply contains_iff. exists (a' ++ a), (b ++ b').
  now rewrite <- !app_assoc.
Qed.

(** ** Host selection *)

Section Selector.

Variable E : Env.

(** The three shapes of an explicit (non-empty) host list. *)
Lemma get_hosts_plain (hosts : str) :
  hosts <> [] -> contains (lit "darwin") hosts = false ->
  get_hosts E hosts
  = Ok (map (fun t => DeployHost_ E (t ++ domain)) (split ","%char hosts)).
Proof.
  intros Hne Hc. unfold get_hosts.
  apply eqb_neq in Hne. now rewrite Hne, Hc.
Qed.

Lemma get_hosts_darwin (hosts : str) :
  contains (lit "darwin") hosts = true -> hosts <> lit "darwin01" ->
  get_hosts E hosts
  = Ok (map (fun t => DeployHost_as E (t ++ domain) (lit "hetzner"))
            (split ","%char hosts)).
Proof.
  intros Hc Hne. unfold get_hosts.
  assert (H0 : eqb hosts [] = false).
  { apply eqb_neq. intros ->. discriminate. }
  apply eqb_neq in Hne. now rewrite H0, Hc, Hne.
Qed.

Lemma get_hosts_darwin01 :
  get_hosts E (lit "darwin01")
  = Ok [DeployHost_as E (lit "darwin01.nix-community.org") (lit "customer")].
Proof. reflexivity. Qed.

Lemma get_hosts_inventory :
  get_hosts E []
  = match flake_show E with
    | Ok systems => Ok (map (fun n => DeployHost_ E (n ++ domain)) systems)
    | Raise e => Raise e
    end.
Proof. reflexivity. Qed.

(** Every explicit list resolves, token by token, to the addresses
    [token ++ domain]. *)
Lemma get_hosts_addresses (hosts : str) :
  hosts <> [] ->
  exists hs, get_hosts E hosts = Ok hs
             /\ map host hs = map (fun t => t ++ domain) (split ","%char hosts).
Proof.
  intros Hne.
  destruct (contains (lit "darwin") hosts) eqn:Hc.
  - destruct (eqb hosts (lit "darwin01")) eqn:Heq.
    + apply eqb_eq in Heq; subst hosts. eexists; split; reflexivity.
    + apply eqb_neq in Heq. rewrite (get_hosts_darwin _ Hc Heq).
      eexists; split; [reflexivity|]. rewrite map_map. reflexivity.
  - rewrite (get_hosts_plain _ Hne Hc).
    eexists; split; [reflexivity|]. rewrite map_map. reflexivity.
Qed.

(** C7: a non-empty comma-separated host list resolves to as many host
    descriptors as it has comma-separated tokens (one more than it has
    commas), the i-th descriptor having the i-th token followed by
    ".nix-community.org" as its address. *)
Theorem get_hosts_one_host_per_token (hosts : str) :
  hosts <> [] ->
  exists hs,
    get_hosts E hosts = Ok hs
    /\ List.length hs = List.length (split ","%char hosts)
    /\ List.length hs = S (count_occ ascii_dec hosts ","%char)
    /\ join ","%char (split ","%char hosts) = hosts
    /\ map host hs = map (fun t => t ++ lit ".nix-community.org")
                         (split ","%char hosts).
Proof.
  intros Hne. destruct (get_hosts_addresses hosts Hne) as [hs [Hg Hm]].
  exists hs. split; [exact Hg|].
  assert (Hl : List.length hs = List.length (split ","%char hosts)).
  { rewrite <- (length_map host hs), Hm. apply length_map. }
  repeat split.
  - exact Hl.
  - rewrite Hl. apply split_length.
  - apply join_split.
  - exact Hm.
Qed.

(** C8 (as the code has it): in a host list other than the single word
    "darwin01", the descriptor of every token that contains "darwin" carries
    the login "hetzner" and the token's address; the login "customer" is
    given when the host list is exactly "darwin01". *)
Theorem get_hosts_darwin_token_login (hosts t : str) (i : nat) :
  nth_error (split ","%char hosts) i = Some t ->
  contains (lit "darwin") t = true ->
  exists hs,
    get_hosts E hosts = Ok hs
    /\ (hosts <> lit "darwin01" ->
        exists h, nth_error hs i = Some h
                  /\ host h = t ++ lit ".nix-community.org"
                  /\ user h = Some (lit "hetzner"))
    /\ (hosts = lit "darwin01" ->
        hs = [mkDeployHost (lit "darwin01.nix-community.org")
                           (Some (lit "customer")) (default_port E)]).
Proof.
  intros Hn Hc.
  assert (Hd : contains (lit "darwin") hosts = true).
  { eapply contains_token; [eapply nth_error_In; exact Hn | exact Hc]. }
  destruct (eqb hosts (lit "darwin01")) eqn:Heq.
  - apply eqb_eq in Heq; subst hosts. eexists; split; [reflexivity|].
    split; [congruence | reflexivity].
  - apply eqb_neq in Heq. rewrite (get_hosts_darwin _ Hd Heq).
    eexists; split; [reflexivity|]. split; [|congruence].
    intros _. eexists; split.
    + rewrite nth_error_map, Hn. reflexivity.
    + split; reflexivity.
Qed.

(** C9: the login is decided on the whole host list.  When the list contains
    "darwin" and is not exactly "darwin01", every descriptor, also that of a
    token without "darwin" and that of a token "darwin01", carries "hetzner";
    the login "customer" appears exactly when the list is "darwin01". *)
Theorem get_hosts_login_decided_on_whole_list (hosts : str) :
  contains (lit "darwin") hosts = true ->
  exists hs,
    get_hosts E hosts = Ok hs
    /\ (hosts <> lit "darwin01" ->
        hs = map (fun t => mkDeployHost (t ++ lit ".nix-community.org")
                                        (Some (lit "hetzner")) (default_port E))
                 (split ","%char hosts)
        /\ Forall (fun h => user h = Some (lit "hetzner")) hs)
    /\ (Exists (fun h => user h = Some (lit "customer")) hs
        <-> hosts = lit "darwin01").
Proof.
  intros Hd.
  destruct (eqb hosts (lit "darwin01")) eqn:Heq.
  - apply eqb_eq in Heq; subst hosts. eexists; split; [reflexivity|].
    split; [congruence|].
    split; [reflexivity | intros _; constructor; reflexivity].
  - apply eqb_neq in Heq. rewrite (get_hosts_darwin _ Hd Heq).
    eexists; split; [reflexivity|].
    assert (HF : Forall (fun h => user h = Some (lit "hetzner"))
                   (map (fun t => DeployHost_as E (t ++ domain) (lit "hetzner"))
                        (split ","%char hosts))).
    { apply Forall_map, Forall_forall. reflexivity. }
    split; [intros _; split; [reflexivity | exact HF]|].
    split; [|contradiction].
    intros Hex. exfalso. apply Exists_exists in Hex.
    destruct Hex as [h [Hin Hu]].
    rewrite Forall_forall in HF. rewrite (HF h Hin) in Hu. discriminate.
Qed.

(** C10: with the empty host list, the descriptors are built from the names
    the flake declares, each with deploykit's default login and the address
    [name ++ ".nix-community.org"], whatever the name contains. *)
Theorem get_hosts_inventory_default_login (systems : list str) :
  flake_show E = Ok systems ->
  get_hosts E []
  = Ok (map (fun n => mkDeployHost (n ++ lit ".nix-community.org")
                                   (default_user E) (default_port E))
            systems)
  /\ (forall hs, get_hosts E [] = Ok hs ->
                 Forall (fun h => user h = default_user E) hs).
Proof.
  intros Hf. rewrite get_hosts_inventory, Hf. split; [reflexivity|].
  intros hs H; inversion H; subst. apply Forall_map, Forall_forall. reflexivity.
Qed.

End Selector.

Lemma get_hosts_one_host_per_token_witness :
  lit "build01,,darwin02" <> []
  /\ exists hs,
       get_hosts example_env (lit "build01,,darwin02") = Ok hs
       /\ List.length hs = List.length (split ","%char (lit "build01,,darwin02"))
       /\ List.length hs = S (count_occ ascii_dec (lit "build01,,darwin02") ","%char)
       /\ join ","%char (split ","%char (lit "build01,,darwin02"))
          = lit "build01,,darwin02"
       /\ map host hs = map (fun t => t ++ lit ".nix-community.org")
                            (split ","%char (lit "build01,,darwin02")).
Proof.
  split; [discriminate|].
  apply (get_hosts_one_host_per_token example_env (lit "build01,,darwin02")).
  discriminate.
Defined.

(** The per-token reading of the login rule fails: in the list
    "darwin01,build01" the token "darwin01" gets the login "hetzner", not
    "customer". *)
Lemma get_hosts_darwin01_in_list_not_customer :
  ~ (forall (E : Env) (hosts t : str) (i : nat),
        nth_error (split ","%char hosts) i = Some t ->
        contains (lit "darwin") t = true ->
        exists hs h,
          get_hosts E hosts = Ok hs
          /\ nth_error hs i = Some h
          /\ user h = Some (if eqb t (lit "darwin01")
                            then lit "customer" else lit "hetzner")).
Proof.
  intros H.
  destruct (H example_env (lit "darwin01,build01") (lit "darwin01") 0%nat
              eq_refl eq_refl) as [hs [h [Hg [Hn Hu]]]].
  vm_compute in Hg. inversion Hg; subst hs.
  vm_compute in Hn. inversion Hn; subst h.
  vm_compute in Hu. discriminate.
Qed.

Lemma get_hosts_darwin_token_login_witness :
  nth_error (split ","%char (lit "build01,darwin02")) 1 = Some (lit "darwin02")
  /\ contains (lit "darwin") (lit "darwin02") = true
  /\ exists hs,
       get_hosts example_env (lit "build01,darwin02") = Ok hs
       /\ (lit "build01,darwin02" <> lit "darwin01" ->
           exists h, nth_error hs 1 = Some h
                     /\ host h = lit "darwin02" ++ lit ".nix-community.org"
                     /\ user h = Some (lit "hetzner"))
       /\ (lit "build01,darwin02" = lit "darwin01" ->
           hs = [mkDeployHost (lit "darwin01.nix-community.org")
                              (Some (lit "customer")) (default_port example_env)]).
Proof.
  split; [reflexivity|]. split; [reflexivity|].
  apply (get_hosts_darwin_token_login example_env
           (lit "build01,darwin02") (lit "darwin02") 1);
    reflexivity.
Defined.

Lemma get_hosts_login_decided_on_whole_list_witness :
  contains (lit "darwin") (lit "build01,darwin01") = true
  /\ exists hs,
       get_hosts example_env (lit "build01,darwin01") = Ok hs
       /\ (lit "build01,darwin01" <> lit "darwin01" ->
           hs = map (fun t => mkDeployHost (t ++ lit ".nix-community.org")
                                           (Some (lit "hetzner"))
                                           (default_port example_env))
                    (split ","%char (lit "build01,darwin01"))
           /\ Forall (fun h => user h = Some (lit "hetzner")) hs)
       /\ (Exists (fun h => user h = Some (lit "customer")) hs
           <-> lit "build01,darwin01" = lit "darwin01").
Proof.
  split; [reflexivity|].
  apply (get_hosts_login_decided_on_whole_list example_env
           (lit "build01,darwin01")).
  reflexivity.
Defined.

Lemma get_hosts_inventory_default_login_witness :
  flake_show example_env = Ok [lit "build01"; lit "darwin02"]
  /\ get_hosts example_env []
     = Ok (map (fun n => mkDeployHost (n ++ lit ".nix-community.org")
                                      (default_user example_env)
                                      (default_port example_env))
               [lit "build01"; lit "darwin02"])
  /\ (forall hs, get_hosts example_env [] = Ok hs ->
                 Forall (fun h => user h = default_user example_env) hs).
Proof.
  split; [reflexivity|].
  apply (get_hosts_inventory_default_login example_env
           [lit "build01"; lit "darwin02"]).
  reflexivity.
Defined.

(** ** The readiness loop *)

Section Poller.

Variable E : Env.
Variables (address : str) (p : Z).

Lemma rounds_S (delay : Z) (n k : nat) :
  rounds E address p delay n (S k)
  = round address p (create_connection E n address p) delay
    ++ rounds E address p delay (S n) k.
Proof.
  unfold rounds. cbn [seq map List.concat]. rewrite Nat.add_0_r. f_equal.
  rewrite <- seq_shift, map_map. f_equal. apply map_ext.
  intros j. now rewrite Nat.add_succ_r.
Qed.

(** One iteration that goes round again. *)
Lemma wait_for_port_again (shutdown : bool) (fuel : nat) (st : state) :
  goes_round shutdown (create_connection E (attempts st) address p) = true ->
  wait_for_port E (S fuel) address p shutdown st
  = wait_for_port E fuel address p shutdown
      (mkState (S (attempts st))
               (trace st ++ round address p
                                  (create_connection E (attempts st) address p)
                                  (delay_of shutdown))).
Proof.
  intros H. cbn [wait_for_port]. unfold bind at 1, connect. cbn [attempts trace].
  destruct (create_connection E (attempts st) address p), shutdown;
    try discriminate H; unfold bind, emit; cbn [attempts trace];
    rewrite <- !app_assoc; reflexivity.
Qed.

(** One iteration that leaves the loop. *)
Lemma wait_for_port_leave (shutdown : bool) (fuel : nat) (st : state) :
  stops shutdown (create_connection E (attempts st) address p) = true ->
  wait_for_port E (S fuel) address p shutdown st
  = (Returned tt,
     mkState (S (attempts st))
             (trace st ++ [Connect address p 1
                             (create_connection E (attempts st) address p)])).
Proof.
  intros H. cbn [wait_for_port]. unfold bind at 1, connect. cbn [attempts trace].
  destruct (create_connection E (attempts st) address p), shutdown;
    try discriminate H; reflexivity.
Qed.

(** One iteration whose attempt raises what [except OSError] does not
    catch. *)
Lemma wait_for_port_escape (shutdown : bool) (fuel : nat) (st : state)
      (e : exn) :
  create_connection E (attempts st) address p = Uncaught e ->
  wait_for_port E (S fuel) address p shutdown st
  = (Raised e,
     mkState (S (attempts st))
             (trace st ++ [Connect address p 1 (Uncaught e)])).
Proof.
  intros H. cbn [wait_for_port]. unfold bind at 1, connect. cbn [attempts trace].
  rewrite H. reflexivity.
Qed.

Lemma not_round_cases (shutdown : bool) (r : probe_result) :
  goes_round shutdown r = false ->
  stops shutdown r = true \/ exists e, r = Uncaught e.
Proof.
  destruct r as [|c|e], shutdown; cbn; intros H;
    try discriminate H; try (left; reflexivity).
  - right. exists e; reflexivity.
  - right. exists e; reflexivity.
Qed.

(** [k] iterations that all go round again. *)
Lemma wait_for_port_rounds (shutdown : bool) (k fuel : nat) (st : state) :
  (forall j, j < k ->
     goes_round shutdown (create_connection E (attempts st + j) address p) = true) ->
  wait_for_port E (k + fuel) address p shutdown st
  = wait_for_port E fuel address p shutdown
      (mkState (attempts st + k)
               (trace st ++ rounds E address p (delay_of shutdown) (attempts st) k)).
Proof.
  revert st; induction k as [|k IH]; intros st H.
  - cbn. rewrite Nat.add_0_r, app_nil_r. now destruct st.
  - cbn [Nat.add]. rewrite wait_for_port_again.
    2:{ specialize (H 0). rewrite Nat.add_0_r in H. apply H. lia. }
    rewrite IH; cbn [attempts trace].
    + rewrite rounds_S, app_assoc.
      replace (S (attempts st) + k) with (attempts st + S k) by lia. reflexivity.
    + intros j Hj. replace (S (attempts st) + j) with (attempts st + S j) by lia.
      apply H. lia.
Qed.

(** The loop observed for [fuel] iterations: either all of them went round
    again and it is still running, or it returned at the first attempt that
    ends the loop, nothing being emitted after that attempt, or it raised
    what that attempt raised. *)
Lemma wait_for_port_run (shutdown : bool) (fuel : nat) (st : state) :
  exists k,
    k <= fuel
    /\ (forall j, j < k ->
          goes_round shutdown (create_connection E (attempts st + j) address p)
          = true)
    /\ ((k = fuel
         /\ wait_for_port E fuel address p shutdown st
            = (Running,
               mkState (attempts st + k)
                       (trace st ++ rounds E address p (delay_of shutdown)
                                           (attempts st) k)))
        \/ (k < fuel
            /\ stops shutdown
                 (create_connection E (attempts st + k) address p) = true
            /\ wait_for_port E fuel address p shutdown st
               = (Returned tt,
                  mkState (attempts st + k + 1)
                          (trace st
                           ++ rounds E address p (delay_of shutdown) (attempts st) k
                           ++ [Connect address p 1
                                 (create_connection E (attempts st + k)
                                                    address p)])))
        \/ (k < fuel
            /\ exists e,
                create_connection E (attempts st + k) address p = Uncaught e
                /\ wait_for_port E fuel address p shutdown st
                   = (Raised e,
                      mkState (attempts st + k + 1)
                              (trace st
                               ++ rounds E address p (delay_of shutdown)
                                         (attempts st) k
                               ++ [Connect address p 1 (Uncaught e)])))).
Proof.
  revert st; induction fuel as [|fuel IH]; intros st.
  - exists 0. split; [lia|]. split; [intros j Hj; lia|]. left. split; [reflexivity|].
    cbn. rewrite Nat.add_0_r, app_nil_r. now destruct st.
  - destruct (goes_round shutdown (create_connection E (attempts st) address p))
      eqn:Hg.
    + rewrite (wait_for_port_again _ _ _ Hg).
      destruct (IH (mkState (S (attempts st))
                      (trace st ++ round address p
                         (create_connection E (attempts st) address p)
                         (delay_of shutdown)))) as [k [Hk [Hall Hres]]].
      cbn [attempts trace] in *. exists (S k). split; [lia|]. split.
      * intros [|j] Hj; [now rewrite Nat.add_0_r|].
        replace (attempts st + S j) with (S (attempts st) + j) by lia.
        apply Hall. lia.
      * rewrite rounds_S.
        replace (attempts st + S k) with (S (attempts st) + k) by lia.
        destruct Hres as [[-> Hr] | [[Hlt [Hstop Hr]] | [Hlt [e [He Hr]]]]];
          [left | right; left | right; right].
        -- split; [reflexivity|]. rewrite Hr, <- app_assoc. reflexivity.
        -- split; [lia|]. split; [exact Hstop|].
           rewrite Hr, <- !app_assoc. reflexivity.
        -- split; [lia|]. exists e. split; [exact He|].
           rewrite Hr, <- !app_assoc. reflexivity.
    + exists 0. split; [lia|]. split; [intros j Hj; lia|]. right.
      rewrite Nat.add_0_r.
      destruct (not_round_cases _ _ Hg) as [Hs | [e He]]; [left | right].
      * split; [lia|]. split; [exact Hs|].
        rewrite (wait_for_port_leave _ _ _ Hs). cbn.
        do 2 f_equal. lia.
      * split; [lia|]. exists e. split; [exact He|].
        rewrite (wait_for_port_escape _ _ _ _ He). cbn.
        do 2 f_equal. lia.
Qed.

End Poller.


Lemma goes_round_down (r : probe_result) :
  goes_round true r = true <-> r = Connected.
Proof. destruct r; simpl; split; congruence. Qed.

Lemma goes_round_up (r : probe_result) :
  goes_round false r = true <-> exists c, r = OSError c.
Proof.
  destruct r; simpl; split; try congruence.
  - intros [c H]; discriminate.
  - intros _. eexists; reflexivity.
  - intros [c H]; discriminate.
Qed.








(** ** The reboot task *)

Section Reboot.

Variable E : Env.

(** The first attempt that does not go round again ends the loop. *)
Lemma wait_for_port_first_stop (address : str) (p : Z) (shutdown : bool)
      (k fuel : nat) (st : state) :
  (forall j, j < k ->
     goes_round shutdown (create_connection E (attempts st + j) address p) = true) ->
  stops shutdown (create_connection E (attempts st + k) address p) = true ->
  k < fuel ->
  wait_for_port E fuel address p shutdown st
  = (Returned tt,
     mkState (attempts st + k + 1)
             (trace st
              ++ rounds E address p (delay_of shutdown) (attempts st) k
              ++ [Connect address p 1
                    (create_connection E (attempts st + k) address p)])).
Proof.
  intros Hgo Hstop Hf.
  replace fuel with (k + S (fuel - k - 1)) by lia.
  rewrite wait_for_port_rounds by exact Hgo.
  rewrite wait_for_port_leave by exact Hstop. cbn [attempts trace].
  rewrite <- app_assoc. do 2 f_equal. lia.
Qed.

(** The loop body up to its first wait, and between its two waits. *)
Lemma reboot_host_head (fuel : nat) (h : DeployHost) (st : state) :
  run E h (lit "sudo reboot &") = Ok tt ->
  reboot_host E fuel h st
  = (wait_for_port E fuel (host h) (port_or h 22) true ;;
     print [] newline ;;
     print (lit "Wait for " ++ host h ++ lit " to start") [] ;;
     emit Flush ;;
     wait_for_port E fuel (host h) (port_or h 22) false ;;
     print [] newline)
      (mkState (attempts st) (trace st ++ cycle_head h)).
Proof.
  intros Hrun. unfold reboot_host, h_run, print.
  unfold bind at 1 2. unfold emit at 1. unfold lift. rewrite Hrun.
  unfold bind at 1. unfold emit at 1. cbn [attempts trace].
  unfold bind at 1. unfold emit at 1. cbn [attempts trace].
  rewrite app_nil_r, <- !app_assoc. reflexivity.
Qed.

Lemma reboot_host_raises (fuel : nat) (h : DeployHost) (st : state) (e : exn) :
  run E h (lit "sudo reboot &") = Raise e ->
  reboot_host E fuel h st
  = (Raised e,
     mkState (attempts st) (trace st ++ [Run h (lit "sudo reboot &")])).
Proof.
  intros Hrun. unfold reboot_host, h_run.
  unfold bind at 1 2. unfold emit at 1. unfold lift. rewrite Hrun. reflexivity.
Qed.

Lemma reboot_host_mid (fuel : nat) (h : DeployHost) (st : state) :
  (print [] newline ;;
   print (lit "Wait for " ++ host h ++ lit " to start") [] ;;
   emit Flush ;;
   wait_for_port E fuel (host h) (port_or h 22) false ;;
   print [] newline) st
  = (wait_for_port E fuel (host h) (port_or h 22) false ;;
     print [] newline)
      (mkState (attempts st)
               (trace st ++ [Write newline;
                             Write (lit "Wait for " ++ host h ++ lit " to start");
                             Flush])).
Proof.
  unfold print.
  unfold bind at 1. unfold emit at 1. cbn [attempts trace].
  unfold bind at 1. unfold emit at 1. cbn [attempts trace].
  unfold bind at 1. unfold emit at 1. cbn [attempts trace].
  rewrite app_nil_r, <- !app_assoc. reflexivity.
Qed.

(** One pass through the loop body: either a complete cycle, or the body did
    not return and what it emitted is a proper beginning of a cycle. *)
Lemma reboot_host_run (fuel : nat) (h : DeployHost) (st : state) :
  (exists kd ku,
      cycle_complete E h (attempts st) kd ku
      /\ reboot_host E fuel h st
         = (Returned tt,
            mkState (attempts st + kd + ku + 2)
                    (trace st ++ reboot_cycle E h (attempts st) kd ku)))
  \/ (exists o st' kd ku part later,
         reboot_host E fuel h st = (o, st')
         /\ o <> Returned tt
         /\ trace st' = trace st ++ part
         /\ part ++ later = reboot_cycle E h (attempts st) kd ku
         /\ later <> []).
Proof.
  destruct (run E h (lit "sudo reboot &")) as [[]|e] eqn:Hrun.
  2:{ right. rewrite (reboot_host_raises _ _ _ _ Hrun).
      exists (Raised e), (mkState (attempts st)
                            (trace st ++ [Run h (lit "sudo reboot &")])), 0, 0.
      exists [Run h (lit "sudo reboot &")],
             (skipn 1 (reboot_cycle E h (attempts st) 0 0)).
      split; [reflexivity|]. split; [discriminate|].
      split; [reflexivity|].
      unfold reboot_cycle, cycle_head. cbn [app skipn].
      split; [reflexivity | discriminate]. }
  pose proof (reboot_host_head fuel h st Hrun) as HR.
  set (st1 := mkState (attempts st) (trace st ++ cycle_head h)) in HR.
  destruct (wait_for_port_run E (host h) (port_or h 22) true fuel st1)
    as [kd [_ [Hup [[-> Hr] | [[Hlt [Hstop Hr]] | [Hlt [e [He Hr]]]]]]]].
  { right. unfold bind at 1 in HR. rewrite Hr in HR. rewrite HR.
    eexists Running, _, fuel, 0.
    exists (cycle_head h
            ++ rounds E (host h) (port_or h 22) 1000 (attempts st) fuel),
           (cycle_mid h (create_connection E (attempts st + fuel)
                                           (host h) (port_or h 22))
            ++ rounds E (host h) (port_or h 22) 10 (attempts st + fuel + 1) 0
            ++ cycle_tail h (create_connection E (attempts st + fuel + 1 + 0)
                                               (host h) (port_or h 22))).
    split; [reflexivity|].
    split; [discriminate|]. subst st1. cbn [attempts trace delay_of].
    split; [now rewrite <- app_assoc|].
    unfold reboot_cycle.
    split; [now rewrite <- app_assoc|]. unfold cycle_mid. discriminate. }
  2:{ right. unfold bind at 1 in HR. rewrite Hr in HR. rewrite HR.
      subst st1. cbn [attempts trace delay_of] in *.
      eexists (Raised e), _, kd, 0.
      exists (cycle_head h
              ++ rounds E (host h) (port_or h 22) 1000 (attempts st) kd
              ++ [Connect (host h) (port_or h 22) 1 (Uncaught e)]),
             ([Write newline;
               Write (lit "Wait for " ++ host h ++ lit " to start");
               Flush]
              ++ rounds E (host h) (port_or h 22) 10 (attempts st + kd + 1) 0
              ++ cycle_tail h (create_connection E (attempts st + kd + 1 + 0)
                                                 (host h) (port_or h 22))).
      split; [reflexivity|].
      split; [discriminate|]. cbn [attempts trace].
      split; [now rewrite <- !app_assoc|].
      unfold reboot_cycle, cycle_mid. rewrite He, <- !app_assoc. cbn [app].
      split; [reflexivity | discriminate]. }
  unfold bind at 1 in HR. rewrite Hr, reboot_host_mid in HR.
  subst st1. cbn [attempts trace delay_of] in *.
  match type of HR with
  | _ = bind _ _ ?s => set (st2 := s) in HR
  end.
  assert (Ha2 : attempts st2 = attempts st + kd + 1) by reflexivity.
  destruct (wait_for_port_run E (host h) (port_or h 22) false fuel st2)
    as [ku [_ [Hdown [[-> Hr2] | [[Hlt2 [Hstop2 Hr2]] | [Hlt2 [e [He Hr2]]]]]]]].
  { right. unfold bind at 1 in HR. rewrite Hr2 in HR. rewrite HR.
    eexists Running, _, kd, fuel.
    exists (cycle_head h
            ++ rounds E (host h) (port_or h 22) 1000 (attempts st) kd
            ++ cycle_mid h (create_connection E (attempts st + kd)
                                              (host h) (port_or h 22))
            ++ rounds E (host h) (port_or h 22) 10 (attempts st + kd + 1) fuel),
           (cycle_tail h (create_connection E (attempts st + kd + 1 + fuel)
                                            (host h) (port_or h 22))).
    split; [reflexivity|].
    split; [discriminate|]. subst st2. cbn [attempts trace delay_of].
    split; [unfold cycle_mid; rewrite <- !app_assoc; reflexivity|].
    unfold reboot_cycle.
    split; [now rewrite <- !app_assoc|]. unfold cycle_tail. discriminate. }
  2:{ right. unfold bind at 1 in HR. rewrite Hr2 in HR. rewrite HR.
      rewrite Ha2 in He.
      eexists (Raised e), _, kd, ku.
      exists (cycle_head h
              ++ rounds E (host h) (port_or h 22) 1000 (attempts st) kd
              ++ cycle_mid h (create_connection E (attempts st + kd)
                                                (host h) (port_or h 22))
              ++ rounds E (host h) (port_or h 22) 10 (attempts st + kd + 1) ku
              ++ [Connect (host h) (port_or h 22) 1 (Uncaught e)]),
             [Write newline].
      split; [reflexivity|].
      split; [discriminate|]. subst st2. cbn [attempts trace delay_of].
      split; [unfold cycle_mid; rewrite <- !app_assoc; reflexivity|].
      unfold reboot_cycle, cycle_tail. rewrite He, <- !app_assoc. cbn [app].
      split; [reflexivity | discriminate]. }
  left. exists kd, ku. split.
  - split; [exact Hrun|]. rewrite Ha2 in *.
    split; [intros j Hj; apply goes_round_down, Hup, Hj|].
    split.
    { destruct (create_connection E (attempts st + kd) (host h) (port_or h 22))
        as [|c|e]; [discriminate Hstop | exists c; reflexivity
                    | discriminate Hstop]. }
    split; [intros j Hj; apply goes_round_up, Hdown, Hj|].
    destruct (create_connection E (attempts st + kd + 1 + ku)
                                (host h) (port_or h 22));
      [reflexivity | discriminate Hstop2 | discriminate Hstop2].
  - unfold bind at 1 in HR. rewrite Hr2 in HR. rewrite HR. unfold print, emit.
    subst st2. cbn [attempts trace delay_of].
    unfold reboot_cycle, cycle_mid, cycle_tail. rewrite <- !app_assoc. cbn [app].
    do 2 f_equal. lia.
Qed.

(** The whole loop: the hosts are taken in order, and what has been emitted
    at any moment is the complete cycles of the first hosts followed, if the
    loop has not returned, by a proper beginning of the next host's cycle. *)
Lemma reboot_loop_run (fuel : nat) (hs : list DeployHost) (st : state) :
  (exists cs,
      map fst cs = hs
      /\ cycles_complete E (attempts st) cs
      /\ for_each (reboot_host E fuel) hs st
         = (Returned tt,
            mkState (attempts st + probes cs)
                    (trace st ++ cycles E (attempts st) cs)))
  \/ (exists cs h rest o st' kd ku part later,
         hs = map fst cs ++ h :: rest
         /\ cycles_complete E (attempts st) cs
         /\ for_each (reboot_host E fuel) hs st = (o, st')
         /\ o <> Returned tt
         /\ trace st' = trace st ++ cycles E (attempts st) cs ++ part
         /\ part ++ later = reboot_cycle E h (attempts st + probes cs) kd ku
         /\ later <> []).
Proof.
  revert st; induction hs as [|h hs IH]; intros st.
  - left. exists []. cbn. rewrite Nat.add_0_r, app_nil_r.
    destruct st; repeat split.
  - cbn [for_each].
    destruct (reboot_host_run fuel h st)
      as [(kd & ku & Hc & Hr)
         | (o & st' & kd & ku & part & later & Hr & Ho & Ht & Hp & Hl)].
    + unfold bind. rewrite Hr.
      destruct (IH (mkState (attempts st + kd + ku + 2)
                            (trace st ++ reboot_cycle E h (attempts st) kd ku)))
        as [(cs & Hm & Hcs & Hf)
           | (cs & h' & rest & o & st' & kd' & ku' & part & later
              & Hm & Hcs & Hf & Ho & Ht & Hp & Hl)];
        cbn [attempts trace] in *.
      * left. exists ((h, (kd, ku)) :: cs). cbn [map fst cycles probes cycles_complete].
        split; [now rewrite Hm|]. split; [split; assumption|].
        rewrite Hf, <- app_assoc. do 2 f_equal. lia.
      * right. exists ((h, (kd, ku)) :: cs), h', rest, o, st', kd', ku', part, later.
        cbn [map fst cycles probes cycles_complete app].
        split; [now rewrite Hm|]. split; [split; assumption|].
        split; [exact Hf|]. split; [exact Ho|].
        split; [now rewrite Ht, <- !app_assoc|].
        split; [|exact Hl]. rewrite Hp. f_equal. lia.
    + right. exists [], h, hs, o, st', kd, ku, part, later.
      cbn [map app cycles probes cycles_complete].
      split; [reflexivity|]. split; [exact I|].
      split.
      { unfold bind. rewrite Hr. destruct o as [[]| |]; [congruence | reflexivity..]. }
      split; [exact Ho|]. split; [exact Ht|].
      split; [|exact Hl]. now rewrite Nat.add_0_r.
Qed.

(** Searching upwards from [n] finds the first attempt that ends a loop. *)
Lemma first_stop (address : str) (p : Z) (shutdown : bool) (k n : nat) :
  goes_round shutdown (create_connection E (n + k) address p) = false ->
  exists k',
    (forall j, j < k' ->
       goes_round shutdown (create_connection E (n + j) address p) = true)
    /\ goes_round shutdown (create_connection E (n + k') address p) = false.
Proof.
  revert n; induction k as [|k IH]; intros n H.
  - exists 0. split; [intros j Hj; lia | exact H].
  - destruct (goes_round shutdown (create_connection E n address p)) eqn:Hn.
    + destruct (IH (S n)) as [k' [Hgo Hstop]].
      { replace (S n + k) with (n + S k) by lia. exact H. }
      exists (S k'). split.
      * intros [|j] Hj; [now rewrite Nat.add_0_r|].
        replace (n + S j) with (S n + j) by lia. apply Hgo. lia.
      * replace (n + S k') with (S n + k') by lia. exact Hstop.
    + exists 0. split; [intros j Hj; lia | now rewrite Nat.add_0_r].
Qed.

(** On such a network a host whose reboot command succeeds completes its
    cycle as soon as enough iterations are observed. *)
Lemma reboot_host_returns (h : DeployHost) (st : state) :
  network_recovers E ->
  run E h (lit "sudo reboot &") = Ok tt ->
  exists kd ku,
    cycle_complete E h (attempts st) kd ku
    /\ forall fuel, kd < fuel -> ku < fuel ->
         reboot_host E fuel h st
         = (Returned tt,
            mkState (attempts st + kd + ku + 2)
                    (trace st ++ reboot_cycle E h (attempts st) kd ku)).
Proof.
  intros Hnet Hrun.
  destruct (Hnet (attempts st) (host h) (port_or h 22))
    as (_ & (k0 & c0 & H0) & _).
  destruct (first_stop (host h) (port_or h 22) true k0 (attempts st))
    as [kd [Hup Hnot]]; [now rewrite H0|].
  destruct (Hnet (attempts st + kd + 1) (host h) (port_or h 22))
    as (_ & _ & (k1 & H1)).
  destruct (first_stop (host h) (port_or h 22) false k1 (attempts st + kd + 1))
    as [ku [Hdown Hnot2]]; [now rewrite H1|].
  assert (Hstop : stops true (create_connection E (attempts st + kd)
                                                (host h) (port_or h 22)) = true).
  { destruct (not_round_cases _ _ Hnot) as [Hs | [e He]]; [exact Hs|].
    exfalso.
    exact (proj1 (Hnet (attempts st + kd) (host h) (port_or h 22)) e He). }
  assert (Hstop2 : stops false (create_connection E (attempts st + kd + 1 + ku)
                                                  (host h) (port_or h 22)) = true).
  { destruct (not_round_cases _ _ Hnot2) as [Hs | [e He]]; [exact Hs|].
    exfalso.
    exact (proj1 (Hnet (attempts st + kd + 1 + ku) (host h) (port_or h 22))
                 e He). }
  exists kd, ku. split.
  - split; [exact Hrun|].
    split; [intros j Hj; apply goes_round_down, Hup, Hj|].
    split.
    { destruct (create_connection E (attempts st + kd) (host h) (port_or h 22))
        as [|c|e]; [discriminate Hstop | exists c; reflexivity
                    | discriminate Hstop]. }
    split; [intros j Hj; apply goes_round_up, Hdown, Hj|].
    destruct (create_connection E (attempts st + kd + 1 + ku)
                                (host h) (port_or h 22));
      [reflexivity | discriminate Hstop2 | discriminate Hstop2].
  - intros fuel Hkd Hku.
    rewrite (reboot_host_head _ _ _ Hrun).
    unfold bind at 1.
    rewrite (wait_for_port_first_stop (host h) (port_or h 22) true kd fuel)
      by assumption.
    rewrite reboot_host_mid. cbn [attempts trace delay_of].
    unfold bind at 1.
    rewrite (wait_for_port_first_stop (host h) (port_or h 22) false ku fuel)
      by assumption.
    unfold print, emit. cbn [attempts trace delay_of].
    unfold reboot_cycle, cycle_mid, cycle_tail. rewrite <- !app_assoc. cbn [app].
    do 2 f_equal. lia.
Qed.

Lemma reboot_loop_returns (hs : list DeployHost) (st : state) :
  network_recovers E ->
  (forall h, In h hs -> run E h (lit "sudo reboot &") = Ok tt) ->
  exists cs bound,
    map fst cs = hs
    /\ cycles_complete E (attempts st) cs
    /\ forall fuel, bound <= fuel ->
         for_each (reboot_host E fuel) hs st
         = (Returned tt,
            mkState (attempts st + probes cs)
                    (trace st ++ cycles E (attempts st) cs)).
Proof.
  intros Hnet. revert st; induction hs as [|h hs IH]; intros st Hrun.
  - exists [], 0. cbn. rewrite Nat.add_0_r, app_nil_r.
    destruct st; repeat split.
  - destruct (reboot_host_returns h st Hnet (Hrun h (or_introl eq_refl)))
      as [kd [ku [Hc Hr]]].
    destruct (IH (mkState (attempts st + kd + ku + 2)
                          (trace st ++ reboot_cycle E h (attempts st) kd ku)))
      as [cs [bound [Hm [Hcs Hf]]]].
    { intros h' Hin. apply Hrun. now right. }
    cbn [attempts trace] in *.
    exists ((h, (kd, ku)) :: cs), (S (kd + ku + bound)).
    cbn [map fst cycles probes cycles_complete].
    split; [now rewrite Hm|]. split; [split; assumption|].
    intros fuel Hfuel. cbn [for_each]. unfold bind.
    rewrite Hr by lia. rewrite Hf by lia.
    rewrite <- app_assoc. do 2 f_equal. lia.
Qed.

End Reboot.

(** C5: [reboot] takes the hosts one at a time, in the order of the host
    list.  Whatever number of loop iterations is observed, what has been
    emitted is the complete cycles (reboot command, wait for shutdown, wait
    for start-up) of the first hosts, one after the other, followed, when the
    task has not returned, by a proper beginning of the next host's cycle:
    nothing of a later host precedes the end of an earlier host's cycle.  On
    a network where hosts go down and come back, and with reboot commands
    that succeed, the task returns after one complete cycle per host. *)
Theorem reboot_cycles_in_sequence
        (E : Env) (hosts : str) (hs : list DeployHost) (st : state) :
  get_hosts E hosts = Ok hs ->
  (forall fuel,
      (exists cs,
          map fst cs = hs
          /\ cycles_complete E (attempts st) cs
          /\ reboot E fuel hosts st
             = (Returned tt,
                mkState (attempts st + probes cs)
                        (trace st ++ cycles E (attempts st) cs)))
      \/ (exists cs h rest o st' kd ku part later,
             hs = map fst cs ++ h :: rest
             /\ cycles_complete E (attempts st) cs
             /\ reboot E fuel hosts st = (o, st')
             /\ o <> Returned tt
             /\ trace st' = trace st ++ cycles E (attempts st) cs ++ part
             /\ part ++ later = reboot_cycle E h (attempts st + probes cs) kd ku
             /\ later <> []))
  /\ (network_recovers E ->
      (forall h, In h hs -> run E h (lit "sudo reboot &") = Ok tt) ->
      exists cs bound,
        map fst cs = hs
        /\ cycles_complete E (attempts st) cs
        /\ forall fuel, bound <= fuel ->
             reboot E fuel hosts st
             = (Returned tt,
                mkState (attempts st + probes cs)
                        (trace st ++ cycles E (attempts st) cs))).
Proof.
  intros Hg.
  assert (Hre : forall fuel,
             reboot E fuel hosts st = for_each (reboot_host E fuel) hs st).
  { intros fuel. unfold reboot, bind, lift. now rewrite Hg. }
  split.
  - intros fuel. rewrite Hre. apply reboot_loop_run.
  - intros Hnet Hrun.
    destruct (reboot_loop_returns E hs st Hnet Hrun) as (cs & bound & Hm & Hc & Hf).
    exists cs, bound. split; [exact Hm|]. split; [exact Hc|].
    intros fuel Hb. rewrite Hre. apply Hf, Hb.
Qed.

Lemma example_network_recovers : network_recovers example_env.
Proof.
  intros n address p. cbn [create_connection example_env].
  assert (Hn : n = 5 * (n / 5) + n mod 5) by apply Nat.div_mod_eq.
  assert (Hr : n mod 5 < 5) by (apply Nat.mod_upper_bound; lia).
  split; [intros e; destruct (n mod 5 <? 2); discriminate|].
  split.
  - exists (7 - n mod 5), ConnectionRefused.
    replace (n + (7 - n mod 5)) with (2 + (n / 5 + 1) * 5) by lia.
    now rewrite Nat.Div0.mod_add.
  - exists (5 - n mod 5).
    replace (n + (5 - n mod 5)) with (0 + (n / 5 + 1) * 5) by lia.
    now rewrite Nat.Div0.mod_add.
Qed.

Lemma reboot_cycles_in_sequence_witness :
  get_hosts example_env (lit "build01,build02")
  = Ok [mkDeployHost (lit "build01.nix-community.org") None None;
        mkDeployHost (lit "build02.nix-community.org") None None]
  /\ exists cs bound,
       map fst cs = [mkDeployHost (lit "build01.nix-community.org") None None;
                     mkDeployHost (lit "build02.nix-community.org") None None]
       /\ cycles_complete example_env 0 cs
       /\ forall fuel, bound <= fuel ->
            reboot example_env fuel (lit "build01,build02") st0
            = (Returned tt,
               mkState (0 + probes cs) ([] ++ cycles example_env 0 cs)).
Proof.
  split; [reflexivity|].
  apply (proj2 (reboot_cycles_in_sequence
                  example_env (lit "build01,build02")
                  [mkDeployHost (lit "build01.nix-community.org") None None;
                   mkDeployHost (lit "build02.nix-community.org") None None]
                  st0 eq_refl)).
  - exact example_network_recovers.
  - intros h _. reflexivity.
Defined.

(** ** Replacing the domain *)

Lemma replace_from_skip (old new l s : str) :
  replace_from old new (List.length l) (l ++ s) = replace_from old new 0 s.
Proof.
  induction l as [|c l IH]; [reflexivity|]. exact IH.
Qed.

Lemma replace_from_match (old new r : str) :
  old <> [] ->
  replace_from old new 0 (old ++ r) = new ++ replace_from old new 0 r.
Proof.
  intros Hne. destruct old as [|c old]; [congruence|].
  cbn [app replace_from].
  assert (Hs : startswith (c :: old) (c :: old ++ r) = true).
  { apply startswith_iff. exists r; reflexivity. }
  rewrite Hs.
  replace (List.length (c :: old) - 1) with (List.length old)
    by (cbn [List.length]; lia).
  now rewrite replace_from_skip.
Qed.

Lemma replace_from_miss (old new : str) (c : ascii) (s : str) :
  startswith old (c :: s) = false ->
  replace_from old new 0 (c :: s) = c :: replace_from old new 0 s.
Proof.
  intros H. cbn [replace_from]. now rewrite H.
Qed.

(** An occurrence of a border-free [old] that begins inside [m] in
    [m ++ old] lies wholly inside [m]. *)
Lemma startswith_straddle (old m : str) :
  border_free old = true -> m <> [] ->
  startswith old (m ++ old) = true -> startswith old m = true.
Proof.
  intros Hb Hm Hs. apply startswith_iff in Hs. destruct Hs as [r Hr].
  apply app_eq_app in Hr.
  destruct Hr as [l [[H1 H2] | [H1 H2]]].
  - apply startswith_iff. exists l. exact H1.
  - destruct l as [|x l].
    + apply startswith_iff. exists []. rewrite app_nil_r in *. congruence.
    + exfalso. unfold border_free in Hb. apply negb_true_iff in Hb.
      assert (Hex : existsb
                      (fun k => eqb (firstn k old)
                                    (skipn (List.length old - k) old))
                      (seq 1 (List.length old - 1)) = true).
      { assert (Hlen : List.length old
                       = List.length m + List.length (x :: l)).
        { rewrite H1 at 1. apply length_app. }
        apply existsb_exists. exists (List.length (x :: l)). split.
        - apply in_seq. rewrite Hlen.
          destruct m; [congruence|]. cbn [List.length]. lia.
        - apply eqb_eq.
          replace (List.length old - List.length (x :: l))
            with (List.length m) by lia.
          rewrite H2 at 1. rewrite firstn_app, Nat.sub_diag, firstn_all.
          cbn [firstn]. rewrite app_nil_r.
          rewrite H1.
          rewrite skipn_app, Nat.sub_diag, skipn_all. reflexivity. }
      congruence.
Qed.

(** Where the name itself does not contain the pattern, [replace] removes
    exactly the pattern appended to it. *)
Lemma replace_appended (old name : str) :
  old <> [] -> border_free old = true ->
  contains old name = false ->
  replace old [] (name ++ old) = name.
Proof.
  intros Hne Hb Hc.
  assert (Hr : forall s, replace old [] s = replace_from old [] 0 s).
  { intros s. unfold replace. destruct old; [congruence | reflexivity]. }
  rewrite Hr. clear Hr.
  induction name as [|c name IH].
  - cbn [app]. rewrite <- (app_nil_r old) at 2.
    rewrite replace_from_match by exact Hne. reflexivity.
  - cbn [contains] in Hc. apply orb_false_iff in Hc. destruct Hc as [Hs Hc].
    cbn [app]. rewrite replace_from_miss.
    + f_equal. apply IH, Hc.
    + destruct (startswith old (c :: name ++ old)) eqn:Hs'; [|reflexivity].
      rewrite (startswith_straddle old (c :: name) Hb) in Hs;
        [discriminate | discriminate | exact Hs'].
Qed.

Lemma strip_suffix_appended (suf name : str) :
  spec_strip_suffix suf (name ++ suf) = name.
Proof.
  unfold spec_strip_suffix, endswith.
  assert (Hs : startswith (rev suf) (rev (name ++ suf)) = true).
  { apply startswith_iff. exists (rev name). apply rev_app_distr. }
  rewrite Hs, length_app, Nat.add_sub, firstn_app, Nat.sub_diag, firstn_all.
  cbn [firstn]. apply app_nil_r.
Qed.

(** ** The deploy unit *)

Lemma domain_border_free : border_free domain = true.
Proof. vm_compute. reflexivity. Qed.

Lemma deploy_trace (E : Env) (h : DeployHost) (st : state) (stdout path : str) :
  run_local E h [lit "nix"; lit "flake"; lit "archive"; lit "--to";
                 lit "ssh://" ++ deploy_target h; lit "--json"] = Ok stdout ->
  json_path E stdout = Ok path ->
  trace (snd (deploy E h st))
  = trace st
    ++ [RunLocal h [lit "nix"; lit "flake"; lit "archive"; lit "--to";
                    lit "ssh://" ++ deploy_target h; lit "--json"];
        Run h (deploy_command h
               ++ lit " switch --option accept-flake-config true --flake "
               ++ path ++ lit "#" ++ replace domain [] (host h))].
Proof.
  intros Hl Hj. unfold deploy, h_run_local, h_run.
  unfold bind at 1 2. unfold emit at 1. unfold lift at 1. rewrite Hl.
  unfold bind at 1. unfold lift at 1. rewrite Hj.
  unfold bind, emit, lift. cbn [attempts trace].
  destruct (run E h _); cbn [snd trace]; now rewrite <- app_assoc.
Qed.

(** C1 (as the code has it): the deploy unit picks its command by the
    address.  With "darwin" in the address the archive is sent to
    [user@address] and the command is [darwin-rebuild], without sudo;
    otherwise the archive is sent to the bare address and the command is
    [sudo nixos-rebuild]; both switch to the flake attribute obtained by
    deleting every occurrence of ".nix-community.org" from the address,
    which is the address without its domain suffix whenever the address is a
    name that does not itself contain the domain, followed by the domain. *)
Theorem deploy_command_by_platform
        (E : Env) (h : DeployHost) (st : state) (stdout path : str) :
  run_local E h [lit "nix"; lit "flake"; lit "archive"; lit "--to";
                 lit "ssh://" ++ deploy_target h; lit "--json"] = Ok stdout ->
  json_path E stdout = Ok path ->
  trace (snd (deploy E h st))
  = trace st
    ++ [RunLocal h [lit "nix"; lit "flake"; lit "archive"; lit "--to";
                    lit "ssh://" ++ deploy_target h; lit "--json"];
        Run h (deploy_command h
               ++ lit " switch --option accept-flake-config true --flake "
               ++ path ++ lit "#"
               ++ replace (lit ".nix-community.org") [] (host h))]
  /\ (contains (lit "darwin") (host h) = true ->
      deploy_command h = lit "darwin-rebuild"
      /\ deploy_target h = fmt_opt (user h) ++ lit "@" ++ host h)
  /\ (contains (lit "darwin") (host h) = false ->
      deploy_command h = lit "sudo nixos-rebuild"
      /\ deploy_target h = host h)
  /\ (forall name,
        host h = name ++ lit ".nix-community.org" ->
        contains (lit ".nix-community.org") name = false ->
        replace (lit ".nix-community.org") [] (host h) = name
        /\ spec_strip_suffix (lit ".nix-community.org") (host h) = name).
Proof.
  intros Hl Hj. split; [exact (deploy_trace E h st stdout path Hl Hj)|].
  unfold deploy_command, deploy_target.
  split; [intros ->; split; reflexivity|].
  split; [intros ->; split; reflexivity|].
  intros name -> Hc. split.
  - apply (replace_appended domain name);
      [discriminate | exact domain_border_free | exact Hc].
  - apply (strip_suffix_appended domain name).
Qed.

(** The attribute is not always the address without its suffix: for the host
    that [--hosts build01.nix-community.org] resolves to, the code switches
    to [#build01], the address without its suffix being
    [build01.nix-community.org]. *)
Lemma deploy_attribute_is_not_suffix_strip :
  ~ (forall (E : Env) (h : DeployHost) (st : state) (stdout path : str),
        run_local E h [lit "nix"; lit "flake"; lit "archive"; lit "--to";
                       lit "ssh://" ++ deploy_target h; lit "--json"]
        = Ok stdout ->
        json_path E stdout = Ok path ->
        trace (snd (deploy E h st))
        = trace st
          ++ [RunLocal h [lit "nix"; lit "flake"; lit "archive"; lit "--to";
                          lit "ssh://" ++ deploy_target h; lit "--json"];
              Run h (deploy_command h
                     ++ lit " switch --option accept-flake-config true --flake "
                     ++ path ++ lit "#"
                     ++ spec_strip_suffix (lit ".nix-community.org") (host h))]).
Proof.
  intros H.
  specialize (H example_env
                (mkDeployHost (lit "build01.nix-community.org.nix-community.org")
                              None None)
                st0 archive_stdout (lit "/nix/store/src") eq_refl eq_refl).
  apply (f_equal (fun t => map (fun e => match e with
                                         | Run _ cmd => List.length cmd
                                         | _ => 0
                                         end) t)) in H.
  vm_compute in H. discriminate H.
Qed.

Lemma deploy_command_by_platform_witness :
  run_local example_env
            (mkDeployHost (lit "darwin02.nix-community.org")
                          (Some (lit "hetzner")) None)
            [lit "nix"; lit "flake"; lit "archive"; lit "--to";
             lit "ssh://hetzner@darwin02.nix-community.org"; lit "--json"]
  = Ok archive_stdout
  /\ json_path example_env archive_stdout = Ok (lit "/nix/store/src")
  /\ trace (snd (deploy example_env
                        (mkDeployHost (lit "darwin02.nix-community.org")
                                      (Some (lit "hetzner")) None)
                        st0))
     = [RunLocal (mkDeployHost (lit "darwin02.nix-community.org")
                               (Some (lit "hetzner")) None)
                 [lit "nix"; lit "flake"; lit "archive"; lit "--to";
                  lit "ssh://hetzner@darwin02.nix-community.org";
                  lit "--json"];
        Run (mkDeployHost (lit "darwin02.nix-community.org")
                          (Some (lit "hetzner")) None)
            (lit "darwin-rebuild switch --option accept-flake-config true --flake /nix/store/src#darwin02")].
Proof.
  split; [reflexivity|]. split; [reflexivity|].
  apply (proj1 (deploy_command_by_platform
                  example_env
                  (mkDeployHost (lit "darwin02.nix-community.org")
                                (Some (lit "hetzner")) None)
                  st0 archive_stdout (lit "/nix/store/src")
                  eq_refl eq_refl)).
Defined.

(** ** The parallel executor *)

(** The deploy unit, step by step: it raises what its local command or the
    parsing raises, after the local command alone, and otherwise runs the
    switch command and returns or raises with it. *)
Lemma deploy_cases (E : Env) (h : DeployHost) (st : state) :
  deploy E h st
  = match run_local E h [lit "nix"; lit "flake"; lit "archive"; lit "--to";
                         lit "ssh://" ++ deploy_target h; lit "--json"] with
    | Raise e =>
        (Raised e,
         mkState (attempts st)
           (trace st
            ++ [RunLocal h [lit "nix"; lit "flake"; lit "archive"; lit "--to";
                            lit "ssh://" ++ deploy_target h; lit "--json"]]))
    | Ok stdout =>
        match json_path E stdout with
        | Raise e =>
            (Raised e,
             mkState (attempts st)
               (trace st
                ++ [RunLocal h [lit "nix"; lit "flake"; lit "archive";
                                lit "--to"; lit "ssh://" ++ deploy_target h;
                                lit "--json"]]))
        | Ok path =>
            (match run E h
                       (deploy_command h
                        ++ lit " switch --option accept-flake-config true --flake "
                        ++ path ++ lit "#" ++ replace domain [] (host h)) with
             | Ok _ => Returned tt
             | Raise e => Raised e
             end,
             mkState (attempts st)
               (trace st
                ++ [RunLocal h [lit "nix"; lit "flake"; lit "archive";
                                lit "--to"; lit "ssh://" ++ deploy_target h;
                                lit "--json"];
                    Run h (deploy_command h
                           ++ lit " switch --option accept-flake-config true --flake "
                           ++ path ++ lit "#" ++ replace domain [] (host h))]))
        end
    end.
Proof.
  unfold deploy, h_run_local, h_run, bind, emit, lift. cbn [attempts trace].
  destruct (run_local E h _) as [stdout|e]; [|reflexivity].
  destruct (json_path E stdout) as [path|e]; [|reflexivity].
  cbn [attempts trace].
  destruct (run E h _) as [[]|e]; rewrite <- app_assoc; reflexivity.
Qed.




(** ** Concrete runs *)

Example strip_build01 :
  replace (lit ".nix-community.org") [] (lit "build01.nix-community.org")
  = lit "build01".
Proof. reflexivity. Qed.

Example deploy_linux_host :
  trace (snd (deploy example_env
                     (mkDeployHost (lit "build01.nix-community.org") None None)
                     st0))
  = [RunLocal (mkDeployHost (lit "build01.nix-community.org") None None)
              [lit "nix"; lit "flake"; lit "archive"; lit "--to";
               lit "ssh://build01.nix-community.org"; lit "--json"];
     Run (mkDeployHost (lit "build01.nix-community.org") None None)
         (lit "sudo nixos-rebuild switch --option accept-flake-config true --flake /nix/store/src#build01")].
Proof. reflexivity. Qed.

Example split_keeps_empty_tokens :
  split ","%char (lit "a,,b,") = [lit "a"; []; lit "b"; []].
Proof. reflexivity. Qed.

Example get_hosts_two_linux_hosts :
  get_hosts example_env (lit "build01,build02")
  = Ok [mkDeployHost (lit "build01.nix-community.org") None None;
        mkDeployHost (lit "build02.nix-community.org") None None].
Proof. reflexivity. Qed.

Example get_hosts_query_fails :
  get_hosts (mkEnv None None (Raise CalledProcessError)
                   (fun _ _ => Ok archive_stdout) parse_path
                   (fun _ _ => Ok tt) (fun _ _ _ => Connected))
            []
  = Raise CalledProcessError.
Proof. reflexivity. Qed.

Example wait_for_down_two_dots :
  wait_for_port example_env 9 (lit "build01.nix-community.org") 22 true st0
  = (Returned tt,
     mkState 3
       [Connect (lit "build01.nix-community.org") 22 1 Connected;
        Sleep 1000; Write (lit "."); Flush;
        Connect (lit "build01.nix-community.org") 22 1 Connected;
        Sleep 1000; Write (lit "."); Flush;
        Connect (lit "build01.nix-community.org") 22 1
                (OSError ConnectionRefused)]).
Proof. reflexivity. Qed.

Example wait_for_up_unreachable_still_running :
  fst (wait_for_port unreachable_env 50 (lit "build01.nix-community.org") 22
                     false st0)
  = Running.
Proof. reflexivity. Qed.

Example reboot_two_hosts :
  fst (reboot example_env 4 (lit "build01,build02") st0) = Returned tt
  /\ attempts (snd (reboot example_env 4 (lit "build01,build02") st0)) = 11.
Proof. split; reflexivity. Qed.

Example reboot_first_host_command_fails :
  reboot flaky_env 4 (lit "build01,build02") st0
  = (Raised CalledProcessError,
     mkState 0 [Run (mkDeployHost (lit "build01.nix-community.org") None None)
                    (lit "sudo reboot &")]).
Proof. reflexivity. Qed.

(** * Further properties *)

(** ** What host selection guarantees *)

Lemma endswith_appended (suf s : str) : endswith suf (s ++ suf) = true.
Proof.
  unfold endswith. apply startswith_iff. exists (rev s). apply rev_app_distr.
Qed.

(** An occurrence of [sub] in [t ++ d] lies in [t], when [sub] does not occur
    in [d] and does not hold the first character of [d]. *)
Lemma contains_app_clean (sub t d : str) (x : ascii) (d' : str) :
  d = x :: d' -> ~ In x sub -> contains sub d = false ->
  contains sub (t ++ d) = contains sub t.
Proof.
  intros Hd Hx Hc. apply eq_true_iff_eq. rewrite !contains_iff. split.
  - intros (a & b & H). apply app_eq_app in H.
    destruct H as [l [[H1 H2] | [H1 H2]]].
    + symmetry in H2. apply app_eq_app in H2.
      destruct H2 as [l' [[H3 H4] | [H3 H4]]].
      * exists a, l'. now rewrite H1, H3.
      * destruct l' as [|y l'].
        -- exists a, []. rewrite app_nil_r in *. now rewrite H1, H3.
        -- exfalso. apply Hx. rewrite Hd in H4. inversion H4; subst y.
           rewrite H3. apply in_or_app. right. now left.
    + exfalso. assert (Ht : contains sub d = true).
      { apply contains_iff. exists l, b. exact H2. }
      congruence.
  - intros (a & b & H). exists a, (b ++ d). rewrite H.
    now rewrite <- !app_assoc.
Qed.

Lemma darwin_in_address (t : str) :
  contains (lit "darwin") (t ++ domain) = contains (lit "darwin") t.
Proof.
  apply (contains_app_clean (lit "darwin") t domain "."%char
                            (lit "nix-community.org")).
  - reflexivity.
  - cbn. intros H. repeat (destruct H as [H|H]; [discriminate H|]). exact H.
  - reflexivity.
Qed.

(** The i-th host of an explicit list, read back from the i-th token. *)
Lemma get_hosts_nth (E : Env) (hosts t : str) (i : nat) :
  hosts <> [] ->
  nth_error (split ","%char hosts) i = Some t ->
  exists hs h,
    get_hosts E hosts = Ok hs
    /\ nth_error hs i = Some h
    /\ host h = t ++ domain.
Proof.
  intros Hne Hn. destruct (get_hosts_addresses E hosts Hne) as [hs [Hg Hm]].
  assert (Hi : nth_error (map host hs) i = Some (t ++ domain)).
  { rewrite Hm, nth_error_map, Hn. reflexivity. }
  rewrite nth_error_map in Hi.
  destruct (nth_error hs i) as [h|] eqn:Hh; [|discriminate Hi].
  exists hs, h. split; [exact Hg|]. split; [exact Hh|].
  now inversion Hi.
Qed.

(** X1: whatever the host list, every descriptor [get_hosts] returns has an
    address that ends with the domain, deploykit's default port, and one of
    three logins: the default, "hetzner" or "customer". *)
Theorem get_hosts_descriptors_well_formed
        (E : Env) (hosts : str) (hs : list DeployHost) :
  get_hosts E hosts = Ok hs ->
  Forall (fun h =>
            endswith (lit ".nix-community.org") (host h) = true
            /\ port h = default_port E
            /\ (user h = default_user E
                \/ user h = Some (lit "hetzner")
                \/ user h = Some (lit "customer")))
         hs.
Proof.
  unfold get_hosts. intros H.
  destruct (eqb hosts []).
  - destruct (flake_show E) as [systems|e]; [|discriminate H].
    inversion H; subst hs. apply Forall_map, Forall_forall. intros n _. cbv beta.
    split; [apply (endswith_appended domain)|]. split; [reflexivity | now left].
  - destruct (contains (lit "darwin") hosts).
    + destruct (eqb hosts (lit "darwin01")); inversion H; subst hs.
      * constructor; [|constructor].
        split; [reflexivity|]. split; [reflexivity|].
        right; right; reflexivity.
      * apply Forall_map, Forall_forall. intros t _. cbv beta.
        split; [apply (endswith_appended domain)|].
        split; [reflexivity | right; left; reflexivity].
    + inversion H; subst hs. apply Forall_map, Forall_forall. intros t _. cbv beta.
      split; [apply (endswith_appended domain)|].
      split; [reflexivity | now left].
Qed.

Lemma get_hosts_descriptors_well_formed_witness :
  get_hosts example_env (lit "build01,darwin02")
  = Ok [mkDeployHost (lit "build01.nix-community.org")
                     (Some (lit "hetzner")) None;
        mkDeployHost (lit "darwin02.nix-community.org")
                     (Some (lit "hetzner")) None]
  /\ Forall (fun h =>
               endswith (lit ".nix-community.org") (host h) = true
               /\ port h = default_port example_env
               /\ (user h = default_user example_env
                   \/ user h = Some (lit "hetzner")
                   \/ user h = Some (lit "customer")))
            [mkDeployHost (lit "build01.nix-community.org")
                          (Some (lit "hetzner")) None;
             mkDeployHost (lit "darwin02.nix-community.org")
                          (Some (lit "hetzner")) None].
Proof.
  split; [reflexivity|].
  apply (get_hosts_descriptors_well_formed
           example_env (lit "build01,darwin02")).
  reflexivity.
Defined.

(** ** From the host list to the commands *)

Lemma attribute_of_address (t : str) :
  contains domain t = false -> replace domain [] (t ++ domain) = t.
Proof.
  intros Hc. apply replace_appended;
    [discriminate | exact domain_border_free | exact Hc].
Qed.

(** X2: deploying the i-th host of an explicit list other than "darwin01",
    whose token [t] does not contain the domain.  The platform is decided by
    the token alone: with "darwin" in it the archive goes to
    [hetzner@t.nix-community.org] and the command is [darwin-rebuild];
    otherwise the archive goes to the bare address and the command is
    [sudo nixos-rebuild], even when the host carries the login "hetzner"
    because another token of the list contains "darwin".  Both switch to the
    flake attribute [t]. *)
Theorem deploy_of_resolved_token (E : Env) (hosts t : str) (i : nat) :
  hosts <> [] -> hosts <> lit "darwin01" ->
  nth_error (split ","%char hosts) i = Some t ->
  contains (lit ".nix-community.org") t = false ->
  exists hs h,
    get_hosts E hosts = Ok hs
    /\ nth_error hs i = Some h
    /\ user h = (if contains (lit "darwin") hosts
                 then Some (lit "hetzner") else default_user E)
    /\ forall st stdout path,
         run_local E h
           [lit "nix"; lit "flake"; lit "archive"; lit "--to";
            lit "ssh://"
            ++ (if contains (lit "darwin") t
                then lit "hetzner@" ++ t ++ lit ".nix-community.org"
                else t ++ lit ".nix-community.org");
            lit "--json"] = Ok stdout ->
         json_path E stdout = Ok path ->
         trace (snd (deploy E h st))
         = trace st
           ++ [RunLocal h
                 [lit "nix"; lit "flake"; lit "archive"; lit "--to";
                  lit "ssh://"
                  ++ (if contains (lit "darwin") t
                      then lit "hetzner@" ++ t ++ lit ".nix-community.org"
                      else t ++ lit ".nix-community.org");
                  lit "--json"];
               Run h ((if contains (lit "darwin") t
                       then lit "darwin-rebuild"
                       else lit "sudo nixos-rebuild")
                      ++ lit " switch --option accept-flake-config true --flake "
                      ++ path ++ lit "#" ++ t)].
Proof.
  intros Hne Hne1 Hn Hc.
  assert (Hex : exists h,
             (exists hs, get_hosts E hosts = Ok hs /\ nth_error hs i = Some h)
             /\ host h = t ++ domain
             /\ user h = (if contains (lit "darwin") hosts
                          then Some (lit "hetzner") else default_user E)
             /\ (contains (lit "darwin") t = true -> user h = Some (lit "hetzner"))).
  { destruct (contains (lit "darwin") hosts) eqn:Hd.
    - exists (DeployHost_as E (t ++ domain) (lit "hetzner")).
      split; [|repeat split].
      eexists. split; [apply (get_hosts_darwin E hosts Hd Hne1)|].
      rewrite nth_error_map, Hn. reflexivity.
    - exists (DeployHost_ E (t ++ domain)).
      split; [|split; [reflexivity|split; [reflexivity|]]].
      + eexists. split; [apply (get_hosts_plain E hosts Hne Hd)|].
        rewrite nth_error_map, Hn. reflexivity.
      + intros Ht. apply nth_error_In in Hn.
        rewrite (contains_token _ _ _ _ Hn Ht) in Hd. discriminate Hd. }
  destruct Hex as (h & (hs & Hg & Hh) & Hhost & Huser & Hdar).
  exists hs, h. split; [exact Hg|]. split; [exact Hh|]. split; [exact Huser|].
  intros st stdout path Hl Hj.
  assert (Htarget : deploy_target h
                    = if contains (lit "darwin") t
                      then lit "hetzner@" ++ t ++ lit ".nix-community.org"
                      else t ++ lit ".nix-community.org").
  { unfold deploy_target. rewrite Hhost, darwin_in_address.
    destruct (contains (lit "darwin") t); [|reflexivity].
    rewrite (Hdar eq_refl). reflexivity. }
  assert (Hcmd : deploy_command h
                 = if contains (lit "darwin") t
                   then lit "darwin-rebuild" else lit "sudo nixos-rebuild").
  { unfold deploy_command. now rewrite Hhost, darwin_in_address. }
  rewrite <- Htarget in Hl |- *. rewrite <- Hcmd.
  rewrite (deploy_trace E h st stdout path Hl Hj).
  rewrite Hhost, (attribute_of_address t Hc). reflexivity.
Qed.

Lemma deploy_of_resolved_token_witness :
  lit "build01,darwin02" <> []
  /\ lit "build01,darwin02" <> lit "darwin01"
  /\ nth_error (split ","%char (lit "build01,darwin02")) 0 = Some (lit "build01")
  /\ contains (lit ".nix-community.org") (lit "build01") = false
  /\ exists hs h,
       get_hosts example_env (lit "build01,darwin02") = Ok hs
       /\ nth_error hs 0 = Some h
       /\ user h = Some (lit "hetzner")
       /\ forall st stdout path,
            run_local example_env h
              [lit "nix"; lit "flake"; lit "archive"; lit "--to";
               lit "ssh://" ++ lit "build01" ++ lit ".nix-community.org";
               lit "--json"] = Ok stdout ->
            json_path example_env stdout = Ok path ->
            trace (snd (deploy example_env h st))
            = trace st
              ++ [RunLocal h
                    [lit "nix"; lit "flake"; lit "archive"; lit "--to";
                     lit "ssh://" ++ lit "build01" ++ lit ".nix-community.org";
                     lit "--json"];
                  Run h (lit "sudo nixos-rebuild"
                         ++ lit " switch --option accept-flake-config true --flake "
                         ++ path ++ lit "#" ++ lit "build01")].
Proof.
  split; [discriminate|]. split; [discriminate|].
  split; [reflexivity|]. split; [reflexivity|].
  apply (deploy_of_resolved_token example_env (lit "build01,darwin02")
                                  (lit "build01") 0);
    [discriminate | discriminate | reflexivity | reflexivity].
Defined.

(** X3: building the i-th host of an explicit list whose token [t] does not
    contain the domain runs one local command,
    [nixos-rebuild build ... --flake .#t], for a darwin token as well, and
    nothing on the host; it raises exactly when that command does. *)
Theorem build_local_of_resolved_token (E : Env) (hosts t : str) (i : nat) :
  hosts <> [] ->
  nth_error (split ","%char hosts) i = Some t ->
  contains (lit ".nix-community.org") t = false ->
  exists hs h,
    get_hosts E hosts = Ok hs
    /\ nth_error hs i = Some h
    /\ forall st,
         build_local E h st
         = (match run_local E h
                    [lit "nixos-rebuild"; lit "build"; lit "--option";
                     lit "accept-flake-config"; lit "true"; lit "--flake";
                     lit ".#" ++ t] with
            | Ok _ => Returned tt
            | Raise e => Raised e
            end,
            mkState (attempts st)
                    (trace st
                     ++ [RunLocal h
                           [lit "nixos-rebuild"; lit "build"; lit "--option";
                            lit "accept-flake-config"; lit "true";
                            lit "--flake"; lit ".#" ++ t]])).
Proof.
  intros Hne Hn Hc.
  destruct (get_hosts_nth E hosts t i Hne Hn) as (hs & h & Hg & Hh & Hhost).
  exists hs, h. split; [exact Hg|]. split; [exact Hh|].
  intros st. unfold build_local, h_run_local.
  rewrite Hhost, (attribute_of_address t Hc).
  unfold bind, emit, lift. cbn [attempts trace].
  destruct (run_local E h _); reflexivity.
Qed.

Lemma build_local_of_resolved_token_witness :
  lit "darwin02" <> []
  /\ nth_error (split ","%char (lit "darwin02")) 0 = Some (lit "darwin02")
  /\ contains (lit ".nix-community.org") (lit "darwin02") = false
  /\ exists hs h,
       get_hosts example_env (lit "darwin02") = Ok hs
       /\ nth_error hs 0 = Some h
       /\ forall st,
            build_local example_env h st
            = (match run_local example_env h
                       [lit "nixos-rebuild"; lit "build"; lit "--option";
                        lit "accept-flake-config"; lit "true"; lit "--flake";
                        lit ".#" ++ lit "darwin02"] with
               | Ok _ => Returned tt
               | Raise e => Raised e
               end,
               mkState (attempts st)
                       (trace st
                        ++ [RunLocal h
                              [lit "nixos-rebuild"; lit "build"; lit "--option";
                               lit "accept-flake-config"; lit "true";
                               lit "--flake"; lit ".#" ++ lit "darwin02"]])).
Proof.
  split; [discriminate|]. split; [reflexivity|]. split; [reflexivity|].
  apply (build_local_of_resolved_token example_env (lit "darwin02")
                                       (lit "darwin02") 0);
    [discriminate | reflexivity | reflexivity].
Defined.

(** X4: deploying the i-th configuration of the full inventory, whose name
    [n] does not contain the domain.  The host carries deploykit's default
    login; a name with "darwin" in it is deployed with [darwin-rebuild] and
    its archive goes to [login@n.nix-community.org], where a default login
    that is [None] is printed as the word None; any other name is deployed
    with [sudo nixos-rebuild] to the bare address.  Both switch to the flake
    attribute [n]. *)
Theorem deploy_of_inventory_name
        (E : Env) (systems : list str) (n : str) (i : nat) :
  flake_show E = Ok systems ->
  nth_error systems i = Some n ->
  contains (lit ".nix-community.org") n = false ->
  exists hs h,
    get_hosts E [] = Ok hs
    /\ nth_error hs i = Some h
    /\ user h = default_user E
    /\ forall st stdout path,
         run_local E h
           [lit "nix"; lit "flake"; lit "archive"; lit "--to";
            lit "ssh://"
            ++ (if contains (lit "darwin") n
                then match default_user E with
                     | Some u => u
                     | None => lit "None"
                     end ++ lit "@" ++ n ++ lit ".nix-community.org"
                else n ++ lit ".nix-community.org");
            lit "--json"] = Ok stdout ->
         json_path E stdout = Ok path ->
         trace (snd (deploy E h st))
         = trace st
           ++ [RunLocal h
                 [lit "nix"; lit "flake"; lit "archive"; lit "--to";
                  lit "ssh://"
                  ++ (if contains (lit "darwin") n
                      then match default_user E with
                           | Some u => u
                           | None => lit "None"
                           end ++ lit "@" ++ n ++ lit ".nix-community.org"
                      else n ++ lit ".nix-community.org");
                  lit "--json"];
               Run h ((if contains (lit "darwin") n
                       then lit "darwin-rebuild"
                       else lit "sudo nixos-rebuild")
                      ++ lit " switch --option accept-flake-config true --flake "
                      ++ path ++ lit "#" ++ n)].
Proof.
  intros Hf Hn Hc.
  exists (map (fun n => DeployHost_ E (n ++ domain)) systems),
         (DeployHost_ E (n ++ domain)).
  split; [now rewrite get_hosts_inventory, Hf|].
  split; [now rewrite nth_error_map, Hn|].
  split; [reflexivity|].
  intros st stdout path Hl Hj.
  set (h := DeployHost_ E (n ++ domain)) in *.
  assert (Htarget : deploy_target h
                    = if contains (lit "darwin") n
                      then match default_user E with
                           | Some u => u
                           | None => lit "None"
                           end ++ lit "@" ++ n ++ lit ".nix-community.org"
                      else n ++ lit ".nix-community.org").
  { unfold deploy_target, h. cbn [host user DeployHost_].
    rewrite darwin_in_address. reflexivity. }
  assert (Hcmd : deploy_command h
                 = if contains (lit "darwin") n
                   then lit "darwin-rebuild" else lit "sudo nixos-rebuild").
  { unfold deploy_command, h. cbn [host DeployHost_].
    now rewrite darwin_in_address. }
  rewrite <- Htarget in Hl |- *. rewrite <- Hcmd.
  rewrite (deploy_trace E h st stdout path Hl Hj).
  unfold h. cbn [host DeployHost_].
  rewrite (attribute_of_address n Hc). reflexivity.
Qed.

Lemma deploy_of_inventory_name_witness :
  flake_show example_env = Ok [lit "build01"; lit "darwin02"]
  /\ nth_error [lit "build01"; lit "darwin02"] 1 = Some (lit "darwin02")
  /\ contains (lit ".nix-community.org") (lit "darwin02") = false
  /\ exists hs h,
       get_hosts example_env [] = Ok hs
       /\ nth_error hs 1 = Some h
       /\ user h = None
       /\ forall st stdout path,
            run_local example_env h
              [lit "nix"; lit "flake"; lit "archive"; lit "--to";
               lit "ssh://"
               ++ lit "None" ++ lit "@" ++ lit "darwin02"
               ++ lit ".nix-community.org";
               lit "--json"] = Ok stdout ->
            json_path example_env stdout = Ok path ->
            trace (snd (deploy example_env h st))
            = trace st
              ++ [RunLocal h
                    [lit "nix"; lit "flake"; lit "archive"; lit "--to";
                     lit "ssh://"
                     ++ lit "None" ++ lit "@" ++ lit "darwin02"
                     ++ lit ".nix-community.org";
                     lit "--json"];
                  Run h (lit "darwin-rebuild"
                         ++ lit " switch --option accept-flake-config true --flake "
                         ++ path ++ lit "#" ++ lit "darwin02")].
Proof.
  split; [reflexivity|]. split; [reflexivity|]. split; [reflexivity|].
  apply (deploy_of_inventory_name example_env
           [lit "build01"; lit "darwin02"] (lit "darwin02") 1);
    reflexivity.
Defined.

(** X5: the deploy unit runs its remote switch command only when the archive
    command succeeded and its output held a path.  When the archive command
    raises, or its output cannot be parsed or has no path, the unit raises
    that exception after the local command alone; otherwise it runs the
    switch command and returns or raises with it.  It makes no connection
    attempt. *)
Theorem deploy_switch_only_after_archive
        (E : Env) (h : DeployHost) (st : state) :
  (forall e,
      run_local E h [lit "nix"; lit "flake"; lit "archive"; lit "--to";
                     lit "ssh://" ++ deploy_target h; lit "--json"]
      = Raise e ->
      deploy E h st
      = (Raised e,
         mkState (attempts st)
           (trace st
            ++ [RunLocal h [lit "nix"; lit "flake"; lit "archive"; lit "--to";
                            lit "ssh://" ++ deploy_target h; lit "--json"]])))
  /\ (forall stdout e,
        run_local E h [lit "nix"; lit "flake"; lit "archive"; lit "--to";
                       lit "ssh://" ++ deploy_target h; lit "--json"]
        = Ok stdout ->
        json_path E stdout = Raise e ->
        deploy E h st
        = (Raised e,
           mkState (attempts st)
             (trace st
              ++ [RunLocal h [lit "nix"; lit "flake"; lit "archive"; lit "--to";
                              lit "ssh://" ++ deploy_target h; lit "--json"]])))
  /\ (forall stdout path,
        run_local E h [lit "nix"; lit "flake"; lit "archive"; lit "--to";
                       lit "ssh://" ++ deploy_target h; lit "--json"]
        = Ok stdout ->
        json_path E stdout = Ok path ->
        deploy E h st
        = (match run E h
                   (deploy_command h
                    ++ lit " switch --option accept-flake-config true --flake "
                    ++ path ++ lit "#"
                    ++ replace (lit ".nix-community.org") [] (host h)) with
           | Ok _ => Returned tt
           | Raise e => Raised e
           end,
           mkState (attempts st)
             (trace st
              ++ [RunLocal h [lit "nix"; lit "flake"; lit "archive"; lit "--to";
                              lit "ssh://" ++ deploy_target h; lit "--json"];
                  Run h (deploy_command h
                         ++ lit " switch --option accept-flake-config true --flake "
                         ++ path ++ lit "#"
                         ++ replace (lit ".nix-community.org") [] (host h))]))).
Proof.
  split; [|split].
  - intros e Hl. now rewrite deploy_cases, Hl.
  - intros stdout e Hl Hj. now rewrite deploy_cases, Hl, Hj.
  - intros stdout path Hl Hj. now rewrite deploy_cases, Hl, Hj.
Qed.

(** ** What the reboot task touches *)

Lemma get_hosts_ports (E : Env) (hosts : str) (hs : list DeployHost) :
  get_hosts E hosts = Ok hs ->
  forall h, In h hs -> port_or h 22 = probe_port E.
Proof.
  unfold get_hosts. intros H h Hin.
  assert (Hp : port h = default_port E).
  { destruct (eqb hosts []).
    - destruct (flake_show E) as [systems|e]; [|discriminate H].
      inversion H; subst hs. apply in_map_iff in Hin.
      destruct Hin as [n [<- _]]. reflexivity.
    - destruct (contains (lit "darwin") hosts).
      + destruct (eqb hosts (lit "darwin01")); inversion H; subst hs.
        * destruct Hin as [<-|[]]. reflexivity.
        * apply in_map_iff in Hin. destruct Hin as [t [<- _]]. reflexivity.
      + inversion H; subst hs. apply in_map_iff in Hin.
        destruct Hin as [t [<- _]]. reflexivity. }
  unfold port_or, probe_port. now rewrite Hp.
Qed.

Section RebootEvents.

Variable E : Env.
Variable hs : list DeployHost.
Variable q : Z.
Hypothesis ports : forall h, In h hs -> port_or h 22 = q.

Lemma rounds_events (h : DeployHost) (d : Z) (n k : nat) :
  In h hs ->
  Forall (reboot_event hs q) (rounds E (host h) (port_or h 22) d n k).
Proof.
  intros Hin. revert n; induction k as [|k IH]; intros n; [constructor|].
  rewrite rounds_S. apply Forall_app. split; [|apply IH].
  unfold round. repeat constructor; cbn [reboot_event].
  - now apply in_map.
  - now apply ports.
Qed.

Lemma cycle_events (h : DeployHost) (n kd ku : nat) :
  In h hs -> Forall (reboot_event hs q) (reboot_cycle E h n kd ku).
Proof.
  intros Hin. unfold reboot_cycle.
  repeat (apply Forall_app; split); try (now apply rounds_events);
    unfold cycle_head, cycle_mid, cycle_tail;
    repeat constructor; cbn [reboot_event];
    solve [assumption | now apply in_map | now apply ports].
Qed.

Lemma cycles_events (cs : list (DeployHost * (nat * nat))) (n : nat) :
  (forall h, In h (map fst cs) -> In h hs) ->
  Forall (reboot_event hs q) (cycles E n cs).
Proof.
  revert n; induction cs as [|[h [kd ku]] cs IH]; intros n Hin; [constructor|].
  cbn [cycles]. apply Forall_app. split.
  - apply cycle_events, Hin. now left.
  - apply IH. intros h' Hh. apply Hin. now right.
Qed.

End RebootEvents.

(** X6: whatever happens, and however long it is observed, [reboot] runs no
    command but [sudo reboot &], only on hosts of the resolved list and
    never locally, and connects only to addresses of that list, on
    deploykit's default port or else 22, with a timeout of one second. *)
Theorem reboot_touches_only_listed_hosts
        (E : Env) (hosts : str) (hs : list DeployHost)
        (fuel : nat) (st : state) :
  get_hosts E hosts = Ok hs ->
  exists new,
    trace (snd (reboot E fuel hosts st)) = trace st ++ new
    /\ Forall (reboot_event hs (probe_port E)) new.
Proof.
  intros Hg.
  assert (Hre : reboot E fuel hosts st = for_each (reboot_host E fuel) hs st).
  { unfold reboot, bind, lift. now rewrite Hg. }
  rewrite Hre.
  pose proof (get_hosts_ports E hosts hs Hg) as Hports.
  destruct (reboot_loop_run E fuel hs st)
    as [(cs & Hm & _ & Hf)
       | (cs & h & rest & o & st' & kd & ku & part & later
          & Hm & _ & Hf & _ & Ht & Hp & _)].
  - exists (cycles E (attempts st) cs). rewrite Hf. split; [reflexivity|].
    apply cycles_events; [exact Hports|]. now rewrite Hm.
  - exists (cycles E (attempts st) cs ++ part). rewrite Hf. split; [exact Ht|].
    apply Forall_app. split.
    + apply cycles_events; [exact Hports|].
      intros h' Hh. rewrite Hm. apply in_or_app. now left.
    + assert (Hc : Forall (reboot_event hs (probe_port E))
                          (reboot_cycle E h (attempts st + probes cs) kd ku)).
      { apply cycle_events; [exact Hports|].
        rewrite Hm. apply in_or_app. right. now left. }
      rewrite <- Hp in Hc. apply Forall_app in Hc. exact (proj1 Hc).
Qed.

Lemma reboot_touches_only_listed_hosts_witness :
  get_hosts example_env (lit "build01,build02")
  = Ok [mkDeployHost (lit "build01.nix-community.org") None None;
        mkDeployHost (lit "build02.nix-community.org") None None]
  /\ exists new,
       trace (snd (reboot example_env 3 (lit "build01,build02") st0))
       = trace st0 ++ new
       /\ Forall (reboot_event
                    [mkDeployHost (lit "build01.nix-community.org") None None;
                     mkDeployHost (lit "build02.nix-community.org") None None]
                    (probe_port example_env))
                 new.
Proof.
  split; [reflexivity|].
  apply (reboot_touches_only_listed_hosts
           example_env (lit "build01,build02")
           [mkDeployHost (lit "build01.nix-community.org") None None;
            mkDeployHost (lit "build02.nix-community.org") None None]
           3 st0).
  reflexivity.
Defined.

(** ** Where the reboot task stops *)

Lemma for_each_app {A : Type} (body : A -> M unit) (xs ys : list A)
      (st : state) :
  for_each body (xs ++ ys) st
  = (for_each body xs ;; for_each body ys) st.
Proof.
  revert st; induction xs as [|x xs IH]; intros st; [reflexivity|].
  cbn [app for_each]. unfold bind at 1 2 3.
  destruct (body x st) as [[[]|e|] st1]; [|reflexivity..].
  rewrite IH. reflexivity.
Qed.

(** Once the hosts before [h] have completed their cycles, the task goes on
    with [h] and then with the hosts after it. *)
Lemma reboot_after_prefix (E : Env) (hosts : str)
      (done rest : list DeployHost) (h : DeployHost)
      (fuel : nat) (st st1 : state) :
  get_hosts E hosts = Ok (done ++ h :: rest) ->
  for_each (reboot_host E fuel) done st = (Returned tt, st1) ->
  reboot E fuel hosts st
  = (reboot_host E fuel h ;; for_each (reboot_host E fuel) rest) st1.
Proof.
  intros Hg Hd. unfold reboot. unfold bind at 1. unfold lift. rewrite Hg.
  rewrite for_each_app. unfold bind at 1. rewrite Hd. reflexivity.
Qed.

(** X7: a reboot command that fails stops the whole task: the exception
    leaves [reboot] right after the command, no connection attempt is made
    for that host, and the hosts after it in the list are not rebooted. *)
Theorem reboot_stops_at_failed_command
        (E : Env) (hosts : str) (done rest : list DeployHost) (h : DeployHost)
        (fuel : nat) (st st1 : state) (e : exn) :
  get_hosts E hosts = Ok (done ++ h :: rest) ->
  for_each (reboot_host E fuel) done st = (Returned tt, st1) ->
  run E h (lit "sudo reboot &") = Raise e ->
  reboot E fuel hosts st
  = (Raised e,
     mkState (attempts st1) (trace st1 ++ [Run h (lit "sudo reboot &")])).
Proof.
  intros Hg Hd Hr.
  rewrite (reboot_after_prefix E hosts done rest h fuel st st1 Hg Hd).
  unfold bind. now rewrite (reboot_host_raises E fuel h st1 e Hr).
Qed.

Lemma reboot_stops_at_failed_command_witness :
  get_hosts failing_reboot_env (lit "build02,build01,build03")
  = Ok ([mkDeployHost (lit "build02.nix-community.org") None None]
        ++ mkDeployHost (lit "build01.nix-community.org") None None
        :: [mkDeployHost (lit "build03.nix-community.org") None None])
  /\ fst (for_each (reboot_host failing_reboot_env 4)
                   [mkDeployHost (lit "build02.nix-community.org") None None]
                   st0)
     = Returned tt
  /\ run failing_reboot_env
         (mkDeployHost (lit "build01.nix-community.org") None None)
         (lit "sudo reboot &")
     = Raise CalledProcessError
  /\ reboot failing_reboot_env 4 (lit "build02,build01,build03") st0
     = (Raised CalledProcessError,
        mkState 6
          (reboot_cycle failing_reboot_env
             (mkDeployHost (lit "build02.nix-community.org") None None) 0 2 2
           ++ [Run (mkDeployHost (lit "build01.nix-community.org") None None)
                   (lit "sudo reboot &")])).
Proof.
  split; [reflexivity|]. split; [reflexivity|]. split; [reflexivity|].
  apply (reboot_stops_at_failed_command
           failing_reboot_env (lit "build02,build01,build03")
           [mkDeployHost (lit "build02.nix-community.org") None None]
           [mkDeployHost (lit "build03.nix-community.org") None None]
           (mkDeployHost (lit "build01.nix-community.org") None None)
           4 st0
           (mkState 6 (reboot_cycle failing_reboot_env
                         (mkDeployHost (lit "build02.nix-community.org")
                                       None None) 0 2 2))
           CalledProcessError);
    reflexivity.
Defined.

Lemma rounds_no_run (E : Env) (address : str) (p : Z) (d : Z) (n k : nat) :
  filter is_run (rounds E address p d n k) = [].
Proof.
  revert n; induction k as [|k IH]; intros n; [reflexivity|].
  rewrite rounds_S, filter_app, IH. reflexivity.
Qed.

(** X8: a host that goes down and never answers again holds the task for
    ever.  Once the hosts before it have completed their cycles and its own
    shutdown has been seen, [reboot] is still waiting for it after any number
    of iterations, a failed attempt and a 10 ms sleep at a time, and the only
    command issued since is that host's: the hosts after it are not
    rebooted. *)
Theorem reboot_hangs_when_host_stays_down
        (E : Env) (hosts : str) (done rest : list DeployHost) (h : DeployHost)
        (fuel kd : nat) (st st1 : state) :
  get_hosts E hosts = Ok (done ++ h :: rest) ->
  for_each (reboot_host E fuel) done st = (Returned tt, st1) ->
  run E h (lit "sudo reboot &") = Ok tt ->
  (forall j, j < kd ->
     create_connection E (attempts st1 + j) (host h) (port_or h 22) = Connected) ->
  (forall j, kd <= j ->
     exists c, create_connection E (attempts st1 + j) (host h) (port_or h 22)
               = OSError c) ->
  kd < fuel ->
  reboot E fuel hosts st
  = (Running,
     mkState (attempts st1 + kd + 1 + fuel)
             (trace st1
              ++ cycle_head h
              ++ rounds E (host h) (port_or h 22) 1000 (attempts st1) kd
              ++ cycle_mid h (create_connection E (attempts st1 + kd)
                                                (host h) (port_or h 22))
              ++ rounds E (host h) (port_or h 22) 10 (attempts st1 + kd + 1)
                        fuel))
  /\ filter is_run (skipn (List.length (trace st1))
                          (trace (snd (reboot E fuel hosts st))))
     = [Run h (lit "sudo reboot &")].
Proof.
  intros Hg Hd Hrun Hup Hdown Hf.
  assert (Hre : reboot E fuel hosts st
                = (Running,
                   mkState (attempts st1 + kd + 1 + fuel)
                     (trace st1
                      ++ cycle_head h
                      ++ rounds E (host h) (port_or h 22) 1000 (attempts st1) kd
                      ++ cycle_mid h (create_connection E (attempts st1 + kd)
                                                        (host h) (port_or h 22))
                      ++ rounds E (host h) (port_or h 22) 10
                                (attempts st1 + kd + 1) fuel))).
  { rewrite (reboot_after_prefix E hosts done rest h fuel st st1 Hg Hd).
    unfold bind at 1. rewrite (reboot_host_head E fuel h st1 Hrun).
    unfold bind at 1.
    rewrite (wait_for_port_first_stop E (host h) (port_or h 22) true kd fuel);
      cbn [attempts trace delay_of].
    - rewrite reboot_host_mid. cbn [attempts trace].
      unfold bind at 1.
      match goal with
      | |- context [wait_for_port E fuel ?a ?p false ?s] =>
          assert (Hw : wait_for_port E fuel a p false s
                       = (Running,
                          mkState (attempts s + fuel)
                                  (trace s ++ rounds E a p (delay_of false)
                                                     (attempts s) fuel)))
      end.
      { rewrite <- (Nat.add_0_r fuel) at 1.
        rewrite wait_for_port_rounds; [reflexivity|].
        cbn [attempts]. intros j _. apply goes_round_up.
        replace (attempts st1 + kd + 1 + j) with (attempts st1 + (kd + 1 + j))
          by lia.
        apply Hdown. lia. }
      rewrite Hw. cbn [attempts trace delay_of].
      unfold cycle_mid. rewrite <- !app_assoc. cbn [app]. reflexivity.
    - intros j Hj. apply goes_round_down, Hup, Hj.
    - destruct (Hdown kd (le_n kd)) as [c Hc]. rewrite Hc. reflexivity.
    - exact Hf. }
  split; [exact Hre|].
  rewrite Hre. cbn [snd trace].
  rewrite skipn_app, Nat.sub_diag, skipn_all. cbn [skipn app].
  rewrite !filter_app, !rounds_no_run. reflexivity.
Qed.

Lemma reboot_hangs_when_host_stays_down_witness :
  get_hosts stays_down_env (lit "build01,build02")
  = Ok ([] ++ mkDeployHost (lit "build01.nix-community.org") None None
           :: [mkDeployHost (lit "build02.nix-community.org") None None])
  /\ 2 < 6
  /\ fst (reboot stays_down_env 6 (lit "build01,build02") st0) = Running
  /\ attempts (snd (reboot stays_down_env 6 (lit "build01,build02") st0)) = 9
  /\ filter is_run (trace (snd (reboot stays_down_env 6
                                       (lit "build01,build02") st0)))
     = [Run (mkDeployHost (lit "build01.nix-community.org") None None)
            (lit "sudo reboot &")].
Proof.
  split; [reflexivity|]. split; [lia|].
  destruct (reboot_hangs_when_host_stays_down
              stays_down_env (lit "build01,build02") []
              [mkDeployHost (lit "build02.nix-community.org") None None]
              (mkDeployHost (lit "build01.nix-community.org") None None)
              6 2 st0 st0 eq_refl eq_refl eq_refl) as [Hre Hrun].
  - intros [|[|j]] Hj; [reflexivity | reflexivity | lia].
  - intros j Hj. exists TimedOut. cbn.
    destruct j as [|[|j]]; [lia | lia | reflexivity].
  - lia.
  - split; [now rewrite Hre|]. split; [now rewrite Hre|]. exact Hrun.
Defined.

(** ** What the operator sees while waiting *)






(** ** Edge behaviour of host selection *)

(** X10: [get_hosts] fails in one way only: the host list is empty and the
    inventory query raises, and then it raises that same exception.  An
    explicit list always resolves, whatever the state of the inventory. *)
Theorem get_hosts_fails_only_with_inventory (E : Env) (hosts : str) (e : exn) :
  get_hosts E hosts = Raise e <-> hosts = [] /\ flake_show E = Raise e.
Proof.
  split.
  - intros H. destruct hosts as [|c hosts].
    + split; [reflexivity|]. rewrite get_hosts_inventory in H.
      destruct (flake_show E); [discriminate H | now inversion H].
    + exfalso.
      destruct (get_hosts_addresses E (c :: hosts)) as [hs [Hg _]];
        [discriminate|].
      rewrite Hg in H. discriminate H.
  - intros [-> Hf]. now rewrite get_hosts_inventory, Hf.
Qed.

Lemma NoDup_map_appended (l : list str) :
  NoDup (map (fun t => t ++ domain) l) <-> NoDup l.
Proof.
  split; [apply NoDup_map_inv|].
  induction 1 as [|t l Hnin Hnd IH]; cbn [map]; constructor; [|exact IH].
  intros Hin. apply in_map_iff in Hin. destruct Hin as [t' [Heq Hin]].
  apply app_inv_tail in Heq. subst t'. contradiction.
Qed.

(** X11: [get_hosts] neither removes duplicates nor merges tokens: the
    addresses of the resolved hosts are pairwise distinct exactly when the
    tokens of the host list are. *)
Theorem get_hosts_keeps_duplicates (E : Env) (hosts : str) :
  hosts <> [] ->
  exists hs,
    get_hosts E hosts = Ok hs
    /\ (NoDup (map host hs) <-> NoDup (split ","%char hosts)).
Proof.
  intros Hne. destruct (get_hosts_addresses E hosts Hne) as [hs [Hg Hm]].
  exists hs. split; [exact Hg|]. rewrite Hm. apply NoDup_map_appended.
Qed.

Lemma get_hosts_keeps_duplicates_witness :
  lit "build01,build01" <> []
  /\ exists hs,
       get_hosts example_env (lit "build01,build01") = Ok hs
       /\ (NoDup (map host hs)
           <-> NoDup (split ","%char (lit "build01,build01"))).
Proof.
  split; [discriminate|].
  apply (get_hosts_keeps_duplicates example_env (lit "build01,build01")).
  discriminate.
Defined.

Lemma deploy_switch_only_after_archive_witness :
  run_local no_path_env
            (mkDeployHost (lit "build01.nix-community.org") None None)
            [lit "nix"; lit "flake"; lit "archive"; lit "--to";
             lit "ssh://build01.nix-community.org"; lit "--json"]
  = Ok (lit "{}")
  /\ json_path no_path_env (lit "{}") = Raise KeyError
  /\ deploy no_path_env
            (mkDeployHost (lit "build01.nix-community.org") None None) st0
     = (Raised KeyError,
        mkState 0
          [RunLocal (mkDeployHost (lit "build01.nix-community.org") None None)
                    [lit "nix"; lit "flake"; lit "archive"; lit "--to";
                     lit "ssh://build01.nix-community.org"; lit "--json"]])
  /\ deploy failing_reboot_env
            (mkDeployHost (lit "build01.nix-community.org") None None) st0
     = (Raised CalledProcessError,
        mkState 0
          [RunLocal (mkDeployHost (lit "build01.nix-community.org") None None)
                    [lit "nix"; lit "flake"; lit "archive"; lit "--to";
                     lit "ssh://build01.nix-community.org"; lit "--json"];
           Run (mkDeployHost (lit "build01.nix-community.org") None None)
               (lit "sudo nixos-rebuild switch --option accept-flake-config true --flake /nix/store/src#build01")]).
Proof.
  split; [reflexivity|]. split; [reflexivity|]. split.
  - apply (proj1 (proj2 (deploy_switch_only_after_archive
                           no_path_env
                           (mkDeployHost (lit "build01.nix-community.org")
                                         None None)
                           st0))
                 (lit "{}") KeyError);
      reflexivity.
  - apply (proj2 (proj2 (deploy_switch_only_after_archive
                           failing_reboot_env
                           (mkDeployHost (lit "build01.nix-community.org")
                                         None None)
                           st0))
                 archive_stdout (lit "/nix/store/src"));
      reflexivity.
Defined.

Lemma get_hosts_fails_only_with_inventory_witness :
  get_hosts (mkEnv None None (Raise CalledProcessError)
                   (fun _ _ => Ok archive_stdout) parse_path
                   (fun _ _ => Ok tt) (fun _ _ _ => Connected))
            []
  = Raise CalledProcessError.
Proof.
  apply (proj2 (get_hosts_fails_only_with_inventory
                  (mkEnv None None (Raise CalledProcessError)
                         (fun _ _ => Ok archive_stdout) parse_path
                         (fun _ _ => Ok tt) (fun _ _ _ => Connected))
                  [] CalledProcessError)).
  split; reflexivity.
Defined.

Example reboot_empty_token_raises :
  fst (reboot empty_label_env 4 (lit "build01,") st0) = Raised UnicodeError
  /\ filter is_run (trace (snd (reboot empty_label_env 4 (lit "build01,") st0)))
     = [Run (mkDeployHost (lit "build01.nix-community.org") None None)
            (lit "sudo reboot &");
        Run (mkDeployHost (lit ".nix-community.org") None None)
            (lit "sudo reboot &")].
Proof. split; reflexivity. Qed.
